(** * A shallow embedding of [main.py], the YouTube downloader service

    The service keeps a JSON ledger of finished downloads
    ([load_videos_info], [save_video_info]), a process-wide progress table
    ([download_progress], written by [progress_hook], [download_video] and
    the [download] handler), lists the formats of a video
    ([get_video_formats]) and validates URLs in its two handlers.

    Python values are embedded as the inductive [value]; dictionaries are
    association lists in insertion order; strings are Rocq strings holding
    the UTF-8 encoding of the Python text (substring search, [split] and
    equality on well-formed UTF-8 agree with the same operations on code
    points).  Exceptions are explicit: effectful functions live in the
    monad [M], a state monad over [world] with an exception result.

    Floats are the kernel's binary64 floats, so the arithmetic of the
    progress callback is Python's, bit for bit.

    The ledger file is part of the world, and each of the three things
    done with it can fail there: looking for it ([exists()], outside any
    try), reading it (inside the try of [load_videos_info]) and writing it
    (inside no try in [save_video_info]).

    What belongs to the interpreter or to a library and is not modelled
    (the Unicode case tables, pydantic's lax coercions, the texts of
    built-in exceptions, the extraction engine) is a field of the record
    [runtime]; every definition that needs it takes it as an argument and
    every theorem holds for all of them. *)

From Stdlib Require Import ZArith Floats String Ascii List Lia.
From Stdlib Require Import Sorting.Sorted Sorting.Permutation.
From stdpp Require Import base gmap strings.
Import ListNotations.

Open Scope string_scope.
Open Scope list_scope.
Open Scope Z_scope.

Set Warnings "-register-all,-inexact-float".

(** ** Python strings *)

(** [sub in s] *)
Fixpoint str_in (sub s : string) : bool :=
  String.prefix sub s ||
  match s with
  | EmptyString => false
  | String _ s' => str_in sub s'
  end.

(** [s.split(sep)] for a non-empty [sep] (every call site passes a
    literal): left to right, non-overlapping.  [skip] counts the characters
    of a separator that was just matched and are still to be dropped. *)
Fixpoint split_from (sep : string) (skip : nat) (cur s : string) : list string :=
  match s with
  | EmptyString => [cur]
  | String c s' =>
    match skip with
    | S k => split_from sep k cur s'
    | O =>
      if String.prefix sep s
      then cur :: split_from sep (String.length sep - 1)%nat EmptyString s'
      else split_from sep O (cur +:+ String c EmptyString) s'
    end
  end.

Definition str_split (s sep : string) : list string :=
  split_from sep O EmptyString s.

Fixpoint char_in (c : ascii) (chars : string) : bool :=
  match chars with
  | EmptyString => false
  | String d chars' => Ascii.eqb c d || char_in c chars'
  end.

(** [s.rstrip(chars)] *)
Fixpoint str_rstrip (s chars : string) : string :=
  match s with
  | EmptyString => EmptyString
  | String c s' =>
    match str_rstrip s' chars with
    | EmptyString => if char_in c chars then EmptyString else String c EmptyString
    | r => String c r
    end
  end.

Fixpoint str_forall (p : ascii -> bool) (s : string) : bool :=
  match s with
  | EmptyString => true
  | String c s' => p c && str_forall p s'
  end.

Fixpoint str_map (f : ascii -> ascii) (s : string) : string :=
  match s with
  | EmptyString => EmptyString
  | String c s' => String (f c) (str_map f s')
  end.

Definition code (c : ascii) : Z := Z.of_nat (nat_of_ascii c).

Definition is_ascii (c : ascii) : bool := code c <? 128.
Definition is_upper (c : ascii) : bool := (65 <=? code c) && (code c <=? 90).
Definition is_digit (c : ascii) : bool := (48 <=? code c) && (code c <=? 57).
(** [Py_ISSPACE]: tab, line feed, vertical tab, form feed, carriage return, space *)
Definition is_space (c : ascii) : bool :=
  (9 <=? code c) && (code c <=? 13) || (code c =? 32).
(** printable ASCII and the six spaces above *)
Definition is_plain (c : ascii) : bool :=
  is_space c || (32 <=? code c) && (code c <=? 126).

Definition ascii_lower (c : ascii) : ascii :=
  if is_upper c then ascii_of_nat (nat_of_ascii c + 32)%nat else c.

Definition digit_val (c : ascii) : Z := code c - 48.

(** The value of a run of decimal digits, most significant first. *)
Fixpoint decimal (acc : Z) (s : string) : Z :=
  match s with
  | EmptyString => acc
  | String c s' => decimal (10 * acc + digit_val c) s'
  end.

(** [sys.get_int_max_str_digits()], the default *)
Definition int_max_str_digits : nat := 4300.

(** The tail of an [int()] literal, read after a digit: more digits, single
    underscores each followed by a digit, then only spaces.  Returns the
    value and the number of digits read. *)
Fixpoint int_digits (s : string) (acc : Z) (n : nat) : option (Z * nat) :=
  match s with
  | EmptyString => Some (acc, n)
  | String c s' =>
    if is_digit c then int_digits s' (10 * acc + digit_val c) (S n)
    else if Ascii.eqb c "_" then
      match s' with
      | String d s'' =>
        if is_digit d then int_digits s'' (10 * acc + digit_val d) (S n) else None
      | EmptyString => None
      end
    else if is_space c && str_forall is_space s' then Some (acc, n)
    else None
  end.

Fixpoint str_lstrip_space (s : string) : string :=
  match s with
  | String c s' => if is_space c then str_lstrip_space s' else s
  | EmptyString => EmptyString
  end.

(** [int(s)] in base 10 on plain ASCII text: [None] is [ValueError]. *)
Definition int_plain (s : string) : option Z :=
  let s1 := str_lstrip_space s in
  let '(neg, s2) :=
    match s1 with
    | String c r =>
      if Ascii.eqb c "-" then (true, r)
      else if Ascii.eqb c "+" then (false, r) else (false, s1)
    | EmptyString => (false, s1)
    end in
  match s2 with
  | String d s3 =>
    if is_digit d then
      match int_digits s3 (digit_val d) 1 with
      | Some (v, n) =>
        if (int_max_str_digits <? n)%nat then None
        else Some (if neg then - v else v)
      | None => None
      end
    else None
  | EmptyString => None
  end.

(** A str is iterated code point by code point: a UTF-8 continuation byte
    (10xxxxxx) stays with the byte that leads it. *)
Definition is_continuation (c : ascii) : bool := (128 <=? code c) && (code c <? 192).

Fixpoint utf8_group (s : string) : string * list string :=
  match s with
  | EmptyString => (EmptyString, [])
  | String c s' =>
    let '(pending, chars) := utf8_group s' in
    if is_continuation c then (String c pending, chars)
    else (EmptyString, String c pending :: chars)
  end.

Definition str_chars (s : string) : list string :=
  let '(pending, chars) := utf8_group s in
  match pending with
  | EmptyString => chars
  | _ => pending :: chars
  end.

(** ** Python values and exceptions *)

Inductive value :=
| VNone
| VBool (b : bool)
| VInt (z : Z)
| VFloat (f : float)
| VStr (s : string)
| VList (items : list value)
| VDict (entries : list (string * value)).

(** A dict with str keys, in insertion order; keys are distinct. *)
Abbreviation dict := (list (string * value)).

Inductive exn :=
| EngineError (text : string)   (* raised by the extraction engine; str(e) = text *)
| TypeError
| ValueError
| KeyError
| AttributeError
| IndexError
| OverflowError
| ZeroDivisionError
| ValidationError                (* pydantic *)
| OSError.

Inductive result (A : Type) :=
| Ok (a : A)
| Raise (e : exn).
Arguments Ok {A} a.
Arguments Raise {A} e.

Definition rbind {A B} (r : result A) (k : A -> result B) : result B :=
  match r with
  | Ok a => k a
  | Raise e => Raise e
  end.

Fixpoint rmap_list {A B} (f : A -> result B) (l : list A) : result (list B) :=
  match l with
  | [] => Ok []
  | a :: l' => rbind (f a) (fun b => rbind (rmap_list f l') (fun bs => Ok (b :: bs)))
  end.

Fixpoint dict_lookup (d : dict) (k : string) : option value :=
  match d with
  | [] => None
  | (k', v) :: d' => if String.eqb k k' then Some v else dict_lookup d' k
  end.

(** [d.get(k)] *)
Definition dict_get (d : dict) (k : string) : value :=
  match dict_lookup d k with Some v => v | None => VNone end.

(** [d.get(k, dflt)] *)
Definition dict_get_or (d : dict) (k : string) (dflt : value) : value :=
  match dict_lookup d k with Some v => v | None => dflt end.

(** [d[k]] *)
Definition dict_item (d : dict) (k : string) : result value :=
  match dict_lookup d k with Some v => Ok v | None => Raise KeyError end.

(** [k in d] *)
Definition dict_has (d : dict) (k : string) : bool :=
  match dict_lookup d k with Some _ => true | None => false end.

(** [v.get(k, dflt)] on a value that may not be a dict *)
Definition py_get (v : value) (k : string) (dflt : value) : result value :=
  match v with
  | VDict d => Ok (dict_get_or d k dflt)
  | _ => Raise AttributeError
  end.

(** [v == s] for a str literal [s] *)
Definition is_str (v : value) (s : string) : bool :=
  match v with
  | VStr t => String.eqb t s
  | _ => false
  end.

(** [bool(v)] *)
Definition truthy (v : value) : bool :=
  match v with
  | VNone => false
  | VBool b => b
  | VInt z => negb (z =? 0)
  | VFloat f => negb (PrimFloat.eqb f 0%float)
  | VStr s => negb (String.eqb s EmptyString)
  | VList l => match l with [] => false | _ => true end
  | VDict d => match d with [] => false | _ => true end
  end.

(** [a or b] *)
Definition py_or (a b : value) : value := if truthy a then a else b.

(** [for x in v]: the items, or [TypeError] when [v] is not iterable. *)
Definition py_iter (v : value) : result (list value) :=
  match v with
  | VList l => Ok l
  | VDict d => Ok (map (fun kv => VStr (fst kv)) d)
  | VStr s => Ok (map VStr (str_chars s))
  | _ => Raise TypeError
  end.

(** ** Python floats: IEEE 754 binary64 *)

Definition prec : Z := 53.
Definition emax : Z := 1024.

(** The double nearest to [a / b] (ties to even) with the sign [neg];
    infinite when the quotient is out of range. *)
Definition nearest_float (neg : bool) (a b : positive) : float :=
  let '(q, e, l) := SpecFloat.SFdiv_core_binary prec emax (Zpos a) 0 (Zpos b) 0 in
  SF2Prim (SpecFloat.binary_round_aux prec emax neg q e l).

Definition is_finite (f : float) : bool :=
  match Prim2SF f with
  | SpecFloat.S754_zero _ | SpecFloat.S754_finite _ _ _ => true
  | _ => false
  end.

Definition checked (f : float) : result float :=
  if is_finite f then Ok f else Raise OverflowError.

(** [a / b] on ints: the correctly rounded quotient. *)
Definition int_truediv (a b : Z) : result float :=
  match b, a with
  | Z0, _ => Raise ZeroDivisionError
  | Zpos _, Z0 => Ok 0%float
  | Zneg _, Z0 => Ok (-0)%float
  | Zpos q, Zpos p => checked (nearest_float false p q)
  | Zneg q, Zneg p => checked (nearest_float false p q)
  | Zpos q, Zneg p => checked (nearest_float true p q)
  | Zneg q, Zpos p => checked (nearest_float true p q)
  end.

(** [float(z)] *)
Definition float_of_int (z : Z) : result float :=
  match z with
  | Z0 => Ok 0%float
  | Zpos p => checked (nearest_float false p 1)
  | Zneg p => checked (nearest_float true p 1)
  end.

Inductive number :=
| NInt (z : Z)
| NFloat (f : float).

(** bool is a subclass of int *)
Definition as_number (v : value) : option number :=
  match v with
  | VBool b => Some (NInt (if b then 1 else 0))
  | VInt z => Some (NInt z)
  | VFloat f => Some (NFloat f)
  | _ => None
  end.

Definition to_float (n : number) : result float :=
  match n with
  | NInt z => float_of_int z
  | NFloat f => Ok f
  end.

(** [x / y]: true division, always a float *)
Definition py_truediv (x y : value) : result float :=
  match as_number x, as_number y with
  | Some (NInt a), Some (NInt b) => int_truediv a b
  | Some n, Some m =>
    rbind (to_float n) (fun a =>
    rbind (to_float m) (fun b =>
    if PrimFloat.eqb b 0%float then Raise ZeroDivisionError
    else Ok (PrimFloat.div a b)))
  | _, _ => Raise TypeError
  end.

(** [v > 0] *)
Definition py_gt_zero (v : value) : result bool :=
  match as_number v with
  | Some (NInt z) => Ok (0 <? z)
  | Some (NFloat f) => Ok (PrimFloat.ltb 0%float f)
  | None => Raise TypeError
  end.

(** The integer nearest to [a / b], ties to even, for [0 <= a] and [0 < b]. *)
Definition div_half_even (a b : Z) : Z :=
  let q := a / b in
  match 2 * (a mod b) ?= b with
  | Lt => q
  | Gt => q + 1
  | Eq => if Z.even q then q else q + 1
  end.

(** [round(x, 2)]: the exact value of [x] rounded to two decimals, ties to
    even, then the double nearest to that decimal. *)
Definition round2 (x : float) : float :=
  match Prim2SF x with
  | SpecFloat.S754_finite s m e =>
    let n :=
      match e with
      | Zneg k => div_half_even (100 * Zpos m) (2 ^ Zpos k)
      | _ => 100 * Zpos m * 2 ^ e
      end in
    match n with
    | Zpos p => nearest_float s p 100
    | _ => if s then (-0)%float else 0%float
    end
  | _ => x
  end.

(** ** The world the service runs in *)

(** VIDEOS_INFO_FILE.  A file is represented by what looking for it and
    reading it give: [exists()] raises [e] on [Inaccessible e] (a stat that
    fails otherwise than by the path being absent, as under a directory that
    may not be searched); [json.load] returns [data] from [Stored data];
    [open] or [json.load] raises [e] on [Unreadable e].  The codec itself is
    the library's: [json.dumps] followed by [json.load] is taken to be the
    identity on what the service writes, lists of dicts of strs and of ints
    that [json.dumps] accepts, so a write that succeeds stores the dumped
    value. *)
Inductive ledger_file :=
| NoFile
| Inaccessible (e : exn)
| Unreadable (e : exn)
| Stored (data : value).

(** What writing VIDEOS_INFO_FILE meets: [open(..., "w")] raises [e] and
    the file stays as it was, or the file is opened, which empties it, and
    [f.write] raises [e].  Reading and writing fail apart from each other (a
    file of mode 0200 is written and not read, one of mode 0400 the reverse;
    a directory in the place of the file is neither), so the world keeps
    the two answers apart: [ledger] for reading, [ledger_fault] for writing. *)
Inductive write_fault :=
| OpenFails (e : exn)
| WriteFails (e : exn).

(** [str(z)], which [json.dumps] calls on every int, raises ValueError on
    more than [int_max_str_digits] digits. *)
Definition int_fits (z : Z) : bool := Z.abs z <? 10 ^ Z.of_nat int_max_str_digits.

(** [json.dumps(v)] returns *)
Fixpoint json_ok (v : value) : bool :=
  match v with
  | VInt z => int_fits z
  | VList l => forallb json_ok l
  | VDict d =>
    (fix items (d : list (string * value)) : bool :=
       match d with
       | [] => true
       | (_, x) :: d' => json_ok x && items d'
       end) d
  | _ => true
  end.

Record world := World {
  ledger : ledger_file;
  (** the global [download_progress], restricted to its str keys: the only
      reader, [get_progress], looks up a str *)
  download_progress : gmap string dict;
  stdout : list string;
  environ : gmap string string;
  (** tasks added to BackgroundTasks: the arguments of [download_video] *)
  background_tasks : list (string * option string);
  (** calls of the engine's extract_info: the url and the download flag *)
  engine_calls : list (string * bool);
  (** what stands in the way of writing the ledger file, if anything *)
  ledger_fault : option write_fault;
}.

(** State over [world] with exceptions: a raised exception keeps the
    state changes made before it. *)
Definition M (A : Type) : Type := world -> result A * world.

Definition ret {A} (a : A) : M A := fun w => (Ok a, w).

Definition raise {A} (e : exn) : M A := fun w => (Raise e, w).

Definition lift {A} (r : result A) : M A := fun w => (r, w).

Definition bind {A B} (m : M A) (k : A -> M B) : M B :=
  fun w =>
    match m w with
    | (Ok a, w') => k a w'
    | (Raise e, w') => (Raise e, w')
    end.

(** [try: body except Exception as e: handler] *)
Definition try_except {A} (body : M A) (handler : exn -> M A) : M A :=
  fun w =>
    match body w with
    | (Ok a, w') => (Ok a, w')
    | (Raise e, w') => handler e w'
    end.

Notation "'let*' x ':=' m 'in' k" := (bind m (fun x => k))
  (at level 10, x name, m at level 100, k at level 200).
Notation "'let?' x ':=' r 'in' k" := (rbind r (fun x => k))
  (at level 10, x name, r at level 100, k at level 200).

Definition set_ledger (f : ledger_file) (w : world) : world :=
  World f (download_progress w) (stdout w) (environ w) (background_tasks w) (engine_calls w)
    (ledger_fault w).

Definition set_download_progress (t : gmap string dict) (w : world) : world :=
  World (ledger w) t (stdout w) (environ w) (background_tasks w) (engine_calls w)
    (ledger_fault w).

Definition set_stdout (out : list string) (w : world) : world :=
  World (ledger w) (download_progress w) out (environ w) (background_tasks w) (engine_calls w)
    (ledger_fault w).

Definition set_background_tasks (ts : list (string * option string)) (w : world) : world :=
  World (ledger w) (download_progress w) (stdout w) (environ w) ts (engine_calls w)
    (ledger_fault w).

Definition set_engine_calls (cs : list (string * bool)) (w : world) : world :=
  World (ledger w) (download_progress w) (stdout w) (environ w) (background_tasks w) cs
    (ledger_fault w).

Definition set_ledger_fault (fault : option write_fault) (w : world) : world :=
  World (ledger w) (download_progress w) (stdout w) (environ w) (background_tasks w)
    (engine_calls w) fault.

Definition print (line : string) : M unit :=
  fun w => (Ok tt, set_stdout (stdout w ++ [line]) w).

(** [download_progress[k] = entry] for a str [k] *)
Definition progress_store (k : string) (entry : dict) : M unit :=
  fun w => (Ok tt, set_download_progress (<[k := entry]> (download_progress w)) w).

(** [download_progress[k] = entry] for any value [k]: a list or a dict is
    unhashable; a key that is not a str leaves the str-keyed part alone. *)
Definition progress_set (k : value) (entry : dict) : M unit :=
  match k with
  | VStr s => progress_store s entry
  | VList _ | VDict _ => raise TypeError
  | _ => ret tt
  end.

(** [os.environ.get(name)] *)
Definition getenv (name : string) : M (option string) :=
  fun w => (Ok (environ w !! name), w).

(** Options of [yt_dlp.YoutubeDL]; [None] is a key the dict does not have. *)
Record ydl_opts := YdlOpts {
  opt_format : option string;
  opt_outtmpl : option string;
  opt_progress_hooks : list (dict -> M unit);
  opt_skip_download : bool;
  opt_quiet : option bool;
  opt_no_warnings : option bool;
  opt_socket_timeout : option Z;
  opt_retries : option Z;
  opt_retry_sleep : option (Z -> Z);
  opt_ignoreerrors : option bool;
  opt_source_address : option string;
  opt_proxy : option string;
}.

(** The records of the ledger *)
Record VideoInfo := {
  id : string;
  title : string;
  duration : Z;
  author : string;
  description : string;
  file_size : string;
  file_path : string;
  thumbnail : string;
  download_date : string;
}.

(** What the interpreter, pydantic and the extraction engine decide. *)
Record runtime := {
  (** [s.lower()] on text with a character outside ASCII *)
  lower_other : string -> string;
  (** [int(s)] on text with a character outside plain ASCII *)
  int_other : string -> option Z;
  (** pydantic, lax mode: the int accepted for an input that is not an int *)
  lax_int : value -> option Z;
  (** [str(e)] for an exception raised by the interpreter or a library *)
  builtin_text : exn -> string;
  (** [yt_dlp.YoutubeDL(opts).extract_info(url, download=flag)] *)
  extract_info : ydl_opts -> string -> bool -> M value;
  (** lines 192 to 207 of [download_video]: the file name, its size on
      disk, the clock and the [VideoInfo] constructor *)
  build_video_info : value -> M VideoInfo;
}.

Section Program.

Variable py : runtime.

(** [str(e)] *)
Definition exn_str (e : exn) : string :=
  match e with
  | EngineError text => text
  | _ => builtin_text py e
  end.

(** [s.lower()]: on ASCII text only A to Z change. *)
Definition str_lower (s : string) : string :=
  if str_forall is_ascii s then str_map ascii_lower s else lower_other py s.

(** [int(s)] *)
Definition py_int (s : string) : result Z :=
  match (if str_forall is_plain s then int_plain s else int_other py s) with
  | Some z => Ok z
  | None => Raise ValueError
  end.

(** *** VideoRecordStore: [load_videos_info], [save_video_info] *)

(** [v.model_dump()] *)
Definition model_dump (v : VideoInfo) : dict :=
  [ ("id", VStr (id v)); ("title", VStr (title v)); ("duration", VInt (duration v));
    ("author", VStr (author v)); ("description", VStr (description v));
    ("file_size", VStr (file_size v)); ("file_path", VStr (file_path v));
    ("thumbnail", VStr (thumbnail v)); ("download_date", VStr (download_date v)) ].

(** pydantic validation of a [str] field: required, and only a str passes. *)
Definition field_str (d : dict) (k : string) : result string :=
  match dict_lookup d k with
  | Some (VStr s) => Ok s
  | _ => Raise ValidationError
  end.

(** pydantic validation of an [int] field: required; an int passes as it is. *)
Definition field_int (d : dict) (k : string) : result Z :=
  match dict_lookup d k with
  | Some (VInt z) => Ok z
  | Some v => match lax_int py v with Some z => Ok z | None => Raise ValidationError end
  | None => Raise ValidationError
  end.

(** The [VideoInfo] constructor on an unpacked [item]: [item] must be a
    mapping; keys that are not fields are ignored. *)
Definition VideoInfo_new (item : value) : result VideoInfo :=
  match item with
  | VDict d =>
    let? id_ := field_str d "id" in
    let? title_ := field_str d "title" in
    let? duration_ := field_int d "duration" in
    let? author_ := field_str d "author" in
    let? description_ := field_str d "description" in
    let? file_size_ := field_str d "file_size" in
    let? file_path_ := field_str d "file_path" in
    let? thumbnail_ := field_str d "thumbnail" in
    let? download_date_ := field_str d "download_date" in
    Ok {| id := id_; title := title_; duration := duration_; author := author_;
          description := description_; file_size := file_size_;
          file_path := file_path_; thumbnail := thumbnail_;
          download_date := download_date_ |}
  | _ => Raise TypeError
  end.

(** [VIDEOS_INFO_FILE.exists()]: False on an absent path; an OSError of
    another kind is raised again. *)
Definition file_exists : M bool :=
  fun w =>
    match ledger w with
    | NoFile => (Ok false, w)
    | Inaccessible e => (Raise e, w)
    | _ => (Ok true, w)
    end.

(** [open(VIDEOS_INFO_FILE)] and [json.load(f)] *)
Definition json_load : M value :=
  fun w =>
    match ledger w with
    | Stored data => (Ok data, w)
    | Unreadable e => (Raise e, w)
    | Inaccessible e => (Raise e, w)
    | NoFile => (Raise OSError, w)
    end.

(** The file as [open(..., "w")] leaves it when nothing, or only a part,
    is written after it: [json.load] raises JSONDecodeError on it. *)
Definition truncated : ledger_file := Unreadable ValueError.

(** lines 74 and 75: [aiofiles.open(VIDEOS_INFO_FILE, "w")], then
    [json.dumps(data, ...)], then [f.write] of the text *)
Definition json_dump (data : value) : M unit :=
  fun w =>
    match ledger_fault w with
    | Some (OpenFails e) => (Raise e, w)
    | fault =>
      if negb (json_ok data) then (Raise ValueError, set_ledger truncated w)
      else
        match fault with
        | Some (WriteFails e) => (Raise e, set_ledger truncated w)
        | _ => (Ok tt, set_ledger (Stored data) w)
        end
    end.

(** lines 60 to 62: the body of the try *)
Definition read_videos_info : M (list VideoInfo) :=
  let* data := json_load in
  let* items := lift (py_iter data) in
  lift (rmap_list VideoInfo_new items).

Definition load_videos_info : M (list VideoInfo) :=
  let* present := file_exists in
  if negb present then ret []
  else
    try_except read_videos_info
      (fun e =>
         let* _ := print ("Error loading videos info: " +:+ exn_str e) in
         ret []).

Definition save_video_info (video_info : VideoInfo) : M unit :=
  let* videos := load_videos_info in
  let videos := List.filter (fun v => negb (String.eqb (id v) (id video_info))) videos in
  let videos := videos ++ [video_info] in
  json_dump (VList (map (fun v => VDict (model_dump v)) videos)).

(** *** The progress callback *)

(** line 79 *)
Definition hook_video_id (d : dict) : result value :=
  py_get (dict_get_or d "info_dict" (VDict [])) "id" (VStr "unknown").

(** line 82 *)
Definition hook_downloaded (d : dict) : value :=
  dict_get_or d "downloaded_bytes" (VInt 0).

(** line 83 *)
Definition hook_total (d : dict) : value :=
  py_or (dict_get d "total_bytes") (dict_get_or d "total_bytes_estimate" (VInt 0)).

(** lines 87 to 92 *)
Definition downloading_entry (d : dict) (progress : float) : dict :=
  [ ("progress", VFloat (round2 progress));
    ("speed", dict_get_or d "speed" (VInt 0));
    ("eta", dict_get_or d "eta" (VInt 0));
    ("status", VStr "downloading") ].

(** lines 95 to 98 *)
Definition finished_entry : dict :=
  [ ("progress", VInt 100); ("status", VStr "finished") ].

Definition progress_hook (d : dict) : M unit :=
  let* video_id := lift (hook_video_id d) in
  let* status := lift (dict_item d "status") in
  if is_str status "downloading" then
    let downloaded := hook_downloaded d in
    let total := hook_total d in
    let* known := lift (py_gt_zero total) in
    if known then
      let* ratio := lift (py_truediv downloaded total) in
      let progress := PrimFloat.mul ratio 100%float in
      progress_set video_id (downloading_entry d progress)
    else ret tt
  else if is_str status "finished" then
    progress_set video_id finished_entry
  else ret tt.

(** *** FormatLister: [get_video_formats] *)

(** the engine call, recorded *)
Definition call_engine (opts : ydl_opts) (url : string) (download : bool) : M value :=
  let* _ := (fun w => (Ok tt, set_engine_calls (engine_calls w ++ [(url, download)]) w)) in
  extract_info py opts url download.

(** line 118: only formats with a video stream *)
Definition has_video (f : dict) : bool :=
  negb (is_str (dict_get f "vcodec") "none") &&
  negb (is_str (dict_get f "resolution") "audio only").

Definition format_info (f : dict) : dict :=
  [ ("format_id", dict_get f "format_id");
    ("resolution", dict_get_or f "resolution" (VStr "unknown"));
    ("ext", dict_get_or f "ext" (VStr "mp4"));
    ("fps", dict_get_or f "fps" (VInt 0));
    ("filesize", dict_get_or f "filesize" (VInt 0));
    ("format_note", dict_get_or f "format_note" (VStr ""));
    ("vcodec", dict_get_or f "vcodec" (VStr "")) ].

(** lines 115 to 128: the loop; [f.get] needs a dict *)
Fixpoint collect_formats (items : list value) : result (list dict) :=
  match items with
  | [] => Ok []
  | VDict f :: rest =>
    let? formats := collect_formats rest in
    Ok (if has_video f then format_info f :: formats else formats)
  | _ :: _ => Raise AttributeError
  end.

(** lines 131 to 135: the key of the sort *)
Definition sort_key (x : dict) : result Z :=
  let? resolution := dict_item x "resolution" in
  if is_str resolution "unknown" then Ok 0
  else
    match resolution with
    | VStr s =>
      if str_in "x" s then
        match nth_error (str_split s "x") 1 with
        | Some h => py_int h
        | None => Raise IndexError
        end
      else py_int (str_rstrip s "p")
    | VList _ | VDict _ => Raise AttributeError
    | _ => Raise TypeError
    end.

(** [list.sort(key=..., reverse=True)] is stable: an element goes in front
    of the elements whose key is not greater. *)
Fixpoint insert_desc {A} (k : Z) (x : A) (l : list (Z * A)) : list (Z * A) :=
  match l with
  | [] => [(k, x)]
  | (k', y) :: l' =>
    if k <? k' then (k', y) :: insert_desc k x l' else (k, x) :: l
  end.

Definition sort_desc {A} (l : list (Z * A)) : list (Z * A) :=
  fold_right (fun kx sorted => insert_desc (fst kx) (snd kx) sorted) [] l.

(** the keys are computed for every element before any comparison *)
Definition sort_formats (formats : list dict) : result (list dict) :=
  let? keys := rmap_list sort_key formats in
  Ok (map snd (sort_desc (combine keys formats))).

Definition formats_opts : ydl_opts :=
  YdlOpts None None [] true (Some true) (Some true) None None None None None None.

Definition get_video_formats (url : string) : M dict :=
  try_except
    (let* info := call_engine formats_opts url false in
     let* raw := lift (py_get info "formats" (VList [])) in
     let* items := lift (py_iter raw) in
     let* formats := lift (collect_formats items) in
     let* formats := lift (sort_formats formats) in
     let* id_ := lift (py_get info "id" (VStr "unknown")) in
     let* title_ := lift (py_get info "title" (VStr "Unknown")) in
     ret [ ("id", id_); ("title", title_); ("formats", VList (map VDict formats)) ])
    (fun e =>
       let* _ := print ("Error getting video formats: " +:+ exn_str e) in
       ret [ ("error", VStr (exn_str e)) ]).

(** *** DownloadWorker: [download_video] *)

Definition nl : string := String (ascii_of_nat 10) EmptyString.

(** lines 217 to 236: the first rule that matches gives the message *)
Definition friendly_error (error_message : string) : string :=
  if str_in "HTTP Error 429" error_message then
    "YouTube 限制了请求速率，请稍后再试。"
  else if str_in "HTTP Error 403" error_message then
    "无法访问此视频，可能是地区限制或需要登录。"
  else if str_in "HTTP Error 404" error_message then
    "视频不存在或已被删除。"
  else if str_in "Unable to download API page" error_message
          || str_in "timed out" (str_lower error_message)
          || str_in "WinError 10060" error_message then
    "网络连接超时，建议：" +:+ nl +:+ "1. 检查网络连接" +:+ nl +:+
    "2. 尝试使用代理服务器" +:+ nl +:+ "3. 稍后重试"
  else if str_in "This video is unavailable" error_message then
    "此视频不可用，可能已被设为私有或删除。"
  else if str_in "Video unavailable" error_message then
    "视频不可用，可能已被上传者删除或设为私有。"
  else if str_in "Sign in" error_message then
    "此视频需要登录才能观看。"
  else if str_in "The uploader has not made this video available" error_message then
    "上传者未在您的国家/地区提供此视频。"
  else if str_in "socket" (str_lower error_message)
          || str_in "network" (str_lower error_message) then
    "网络连接不稳定，建议：" +:+ nl +:+ "1. 检查网络连接" +:+ nl +:+
    "2. 尝试使用代理服务器" +:+ nl +:+ "3. 稍后重试"
  else if str_in "DNS" error_message then
    "DNS解析失败，建议：" +:+ nl +:+ "1. 检查网络DNS设置" +:+ nl +:+
    "2. 尝试使用其他DNS服务器" +:+ nl +:+ "3. 使用代理服务器"
  else error_message.

(** line 213: the key of the error entry *)
Definition failed_video_id (url : string) : string :=
  if str_in "v=" url
  then List.hd EmptyString (str_split (List.last (str_split url "v=") EmptyString) "&")
  else "unknown".

(** lines 238 to 243 *)
Definition error_entry (error_message original : string) : dict :=
  [ ("progress", VInt 0); ("status", VStr "error");
    ("error", VStr error_message); ("original_error", VStr original) ].

(** lines 212 to 245: the except branch *)
Definition download_video_except (url : string) (e : exn) : M (option VideoInfo) :=
  let video_id := failed_video_id url in
  let error_message := friendly_error (exn_str e) in
  let* _ := progress_store video_id (error_entry error_message (exn_str e)) in
  let* _ := print ("Error downloading video: " +:+ exn_str e) in
  ret None.

(** a str option is truthy when it is there and not empty *)
Definition nonempty (o : option string) : option string :=
  match o with
  | Some EmptyString | None => None
  | Some s => Some s
  end.

(** line 163 *)
Definition environ_proxy : M (option string) :=
  let* http_proxy := getenv "HTTP_PROXY" in
  let* https_proxy := getenv "HTTPS_PROXY" in
  ret (match nonempty http_proxy with Some p => Some p | None => nonempty https_proxy end).

Definition retry_sleep (n : Z) : Z := 5 * (n + 1).

(** lines 149 to 168 *)
Definition download_opts (format_id proxy : option string) : ydl_opts :=
  YdlOpts
    (Some (match nonempty format_id with Some f => f | None => "best" end))
    (Some "downloads/%(title)s-%(id)s.%(ext)s")
    [progress_hook]
    false
    (Some false)
    (Some false)
    (Some (match proxy with Some _ => 120 | None => 60 end))
    (Some 10)
    (Some retry_sleep)
    (Some false)
    (Some "0.0.0.0")
    proxy.

(** lines 173 and 174: a copy with skip_download set *)
Definition with_skip_download (o : ydl_opts) : ydl_opts :=
  YdlOpts (opt_format o) (opt_outtmpl o) (opt_progress_hooks o) true (opt_quiet o)
    (opt_no_warnings o) (opt_socket_timeout o) (opt_retries o) (opt_retry_sleep o)
    (opt_ignoreerrors o) (opt_source_address o) (opt_proxy o).

(** lines 177 to 210: the body of the try *)
Definition download_video_try (url : string) (ydl_opts info_opts : ydl_opts) : M (option VideoInfo) :=
  let* info := call_engine info_opts url false in
  let* video_id := lift (py_get info "id" (VStr "unknown")) in
  let* _ := progress_set video_id [ ("progress", VInt 0); ("status", VStr "starting") ] in
  let* _ := call_engine ydl_opts url true in
  let* video_info := build_video_info py info in
  let* _ := save_video_info video_info in
  ret (Some video_info).

Definition download_video (url : string) (format_id : option string) : M (option VideoInfo) :=
  let* proxy := environ_proxy in
  let ydl_opts := download_opts format_id proxy in
  let info_opts := with_skip_download ydl_opts in
  try_except (download_video_try url ydl_opts info_opts) (download_video_except url).

(** *** RequestHandlers *)

(** lines 259 and 273: the url is empty or names neither domain *)
Definition url_rejected (url : string) : bool :=
  negb (truthy (VStr url))
  || negb (existsb (fun domain => str_in domain url) ["youtube.com"; "youtu.be"]).

Definition invalid_url_response : dict :=
  [ ("status", VStr "error"); ("message", VStr "请输入有效的YouTube视频链接") ].

(** GET /video-formats/ *)
Definition get_formats (url : string) : M dict :=
  if url_rejected url then ret invalid_url_response
  else
    let* formats_info := get_video_formats url in
    if dict_has formats_info "error" then
      let* message := lift (dict_item formats_info "error") in
      ret [ ("status", VStr "error"); ("message", message) ]
    else ret [ ("status", VStr "success"); ("data", VDict formats_info) ].

(** lines 277 to 282: the identifier the client will poll with *)
Definition request_video_id (url : string) : string :=
  if str_in "youtube.com" url && str_in "v=" url then
    List.hd EmptyString (str_split (List.last (str_split url "v=") EmptyString) "&")
  else if str_in "youtu.be" url then
    List.hd EmptyString (str_split (List.last (str_split url "/") EmptyString) "?")
  else "unknown".

(** [background_tasks.add_task(download_video, url, format_id)] *)
Definition add_task (url : string) (format_id : option string) : M unit :=
  fun w => (Ok tt, set_background_tasks (background_tasks w ++ [(url, format_id)]) w).

(** POST /download/ *)
Definition download (url : string) (format_id : option string) : M dict :=
  if url_rejected url then ret invalid_url_response
  else
    let video_id := request_video_id url in
    if String.eqb video_id "unknown" then
      ret [ ("status", VStr "error"); ("message", VStr "无法识别视频ID，请检查链接格式") ]
    else
      let* _ := progress_store video_id [ ("progress", VInt 0); ("status", VStr "queued") ] in
      let* _ := add_task url format_id in
      ret [ ("status", VStr "success"); ("message", VStr "Download started");
            ("video_id", VStr video_id) ].

(** GET /progress/{video_id} *)
Definition get_progress (video_id : string) : M dict :=
  fun w =>
    match download_progress w !! video_id with
    | Some entry => (Ok entry, w)
    | None => (Ok [ ("status", VStr "not_found") ], w)
    end.

(** GET /videos/ *)
Definition get_videos : M (list VideoInfo) := load_videos_info.

End Program.

(** ** Reading runs *)

(** the state a run leaves *)
Definition exec {A} (m : M A) (w : world) : world := snd (m w).

(** what [load_videos_info] returns in a state *)
Definition records (py : runtime) (w : world) : list VideoInfo :=
  match fst (load_videos_info py w) with
  | Ok l => l
  | Raise _ => []
  end.

(** ** Sample data *)

(** A runtime for the examples: an engine that answers every url with
    [info], no lax coercion, class names as exception texts. *)
Definition sample_runtime (info : value) : runtime := {|
  lower_other := fun s => s;
  int_other := fun _ => None;
  lax_int := fun _ => None;
  builtin_text := fun e =>
    match e with
    | EngineError text => text
    | TypeError => "TypeError"
    | ValueError => "ValueError"
    | KeyError => "KeyError"
    | AttributeError => "AttributeError"
    | IndexError => "IndexError"
    | OverflowError => "OverflowError"
    | ZeroDivisionError => "ZeroDivisionError"
    | ValidationError => "ValidationError"
    | OSError => "OSError"
    end;
  extract_info := fun _ _ _ => ret info;
  build_video_info := fun _ => raise OSError;
|}.

Definition empty_world : world := World NoFile ∅ [] ∅ [] [] None.

Definition sample_format (format_id : string) (fields : dict) : value :=
  VDict (("format_id", VStr format_id) :: fields).

(** the formats of the ranking example: heights 1080, 720, unknown, 480 *)
Definition sample_formats : list value :=
  [ sample_format "137" [ ("resolution", VStr "1920x1080"); ("vcodec", VStr "avc1") ];
    sample_format "22" [ ("resolution", VStr "720p"); ("vcodec", VStr "avc1") ];
    sample_format "sb0" [ ("vcodec", VStr "vp9") ];
    sample_format "18" [ ("resolution", VStr "480p"); ("vcodec", VStr "avc1") ] ].

(** the labels of the specification's ranking example, to the letter; the
    engine writes W x ? for a format of which only the width is known *)
Definition spec_formats : list value :=
  [ sample_format "137" [ ("resolution", VStr "1080x?"); ("vcodec", VStr "avc1") ];
    sample_format "22" [ ("resolution", VStr "720p"); ("vcodec", VStr "avc1") ];
    sample_format "sb0" [ ("resolution", VStr "unknown"); ("vcodec", VStr "vp9") ];
    sample_format "18" [ ("resolution", VStr "480p"); ("vcodec", VStr "avc1") ] ].


Definition sample_info (formats : list value) : value :=
  VDict [ ("id", VStr "ABC123"); ("title", VStr "Sample"); ("formats", VList formats) ].

(** a downloading tick for the video ABC123 *)
Definition sample_tick (downloaded total : Z) : dict :=
  [ ("status", VStr "downloading");
    ("info_dict", VDict [ ("id", VStr "ABC123") ]);
    ("downloaded_bytes", VInt downloaded);
    ("total_bytes", VInt total);
    ("speed", VFloat 2048%float);
    ("eta", VInt 3) ].

(** a downloading tick of known total whose downloaded_bytes is None *)
Definition stalled_tick : dict :=
  [ ("status", VStr "downloading");
    ("info_dict", VDict [ ("id", VStr "ABC123") ]);
    ("downloaded_bytes", VNone);
    ("total_bytes", VInt 100) ].

Definition sample_record : VideoInfo := {|
  id := "ABC123"; title := "Sample"; duration := 212; author := "Uploader";
  description := ""; file_size := "12.34 MB";
  file_path := "/downloads/Sample-ABC123.mp4"; thumbnail := "";
  download_date := "2024-05-01 12:00:00" |}.

(** the resolutions of the formats a listing returned *)
Definition listed_resolutions (response : dict) : list value :=
  match dict_lookup response "formats" with
  | Some (VList formats) =>
    map (fun f => match f with VDict d => dict_get d "resolution" | _ => VNone end) formats
  | _ => []
  end.

(** the key of a format, 0 where the key function raises *)
Definition key_of (py : runtime) (x : dict) : Z :=
  match sort_key py x with
  | Ok k => k
  | Raise _ => 0
  end.

(** [a] may stand before [b] in a ranking *)
Definition ranks_before (py : runtime) (a b : dict) : Prop :=
  key_of py b <= key_of py a.

Definition has_key (py : runtime) (j : Z) (x : dict) : bool := key_of py x =? j.

(** the four formats of the ranking example after the filter *)
Definition sample_listed : list dict :=
  [ [ ("resolution", VStr "1920x1080") ]; [ ("resolution", VStr "720p") ];
    [ ("resolution", VStr "unknown") ]; [ ("resolution", VStr "480p") ] ].

Definition sample_ranked : list dict :=
  [ [ ("resolution", VStr "1920x1080") ]; [ ("resolution", VStr "720p") ];
    [ ("resolution", VStr "480p") ]; [ ("resolution", VStr "unknown") ] ].

(** ** Definitions the statements use *)

Definition no_char (x : ascii) (s : string) : bool :=
  str_forall (fun c => negb (Ascii.eqb c x)) s.

(** keys do not increase along the list *)
Definition desc {A} (a b : Z * A) : Prop := fst b <= fst a.

(** the elements of key [j] *)
Definition with_key {A} (j : Z) (kx : Z * A) : bool := fst kx =? j.

(** each element of a keyed list carries the key of its format *)
Definition keyed (py : runtime) (l : list (Z * dict)) : Prop :=
  Forall (fun kx => sort_key py (snd kx) = Ok (fst kx)) l.

(** the value [save_video_info] writes for a list of records *)
Definition dumped (videos : list VideoInfo) : value :=
  VList (map (fun v => VDict (model_dump v)) videos).

Definition other_id (r v : VideoInfo) : bool := negb (String.eqb (id v) (id r)).


(** the proxy [download_video] reads from the environment *)
Definition worker_proxy (w : world) : option string :=
  match nonempty (environ w !! "HTTP_PROXY") with
  | Some p => Some p
  | None => nonempty (environ w !! "HTTPS_PROXY")
  end.

(** a runtime whose engine fails with the given text *)
Definition failing_runtime (text : string) : runtime := {|
  lower_other := lower_other (sample_runtime VNone);
  int_other := int_other (sample_runtime VNone);
  lax_int := lax_int (sample_runtime VNone);
  builtin_text := builtin_text (sample_runtime VNone);
  extract_info := fun _ _ _ => raise (EngineError text);
  build_video_info := build_video_info (sample_runtime VNone);
|}.

Definition rate_limit_text : string :=
  "ERROR: [youtube] ABC123: HTTP Error 429: Too Many Requests (DNS cache)".



(** *** The error table of the specification

    The rules of the table as data, tried in order; [friendly_error] is
    compared with it in [friendly_error_first_match]. *)
Definition error_rules (py : runtime) : list ((string -> bool) * string) :=
  [ (str_in "HTTP Error 429", "YouTube 限制了请求速率，请稍后再试。");
    (str_in "HTTP Error 403", "无法访问此视频，可能是地区限制或需要登录。");
    (str_in "HTTP Error 404", "视频不存在或已被删除。");
    (fun text => str_in "Unable to download API page" text
                 || str_in "timed out" (str_lower py text)
                 || str_in "WinError 10060" text,
     "网络连接超时，建议：" +:+ nl +:+ "1. 检查网络连接" +:+ nl +:+
     "2. 尝试使用代理服务器" +:+ nl +:+ "3. 稍后重试");
    (str_in "This video is unavailable", "此视频不可用，可能已被设为私有或删除。");
    (str_in "Video unavailable", "视频不可用，可能已被上传者删除或设为私有。");
    (str_in "Sign in", "此视频需要登录才能观看。");
    (str_in "The uploader has not made this video available",
     "上传者未在您的国家/地区提供此视频。");
    (fun text => str_in "socket" (str_lower py text) || str_in "network" (str_lower py text),
     "网络连接不稳定，建议：" +:+ nl +:+ "1. 检查网络连接" +:+ nl +:+
     "2. 尝试使用代理服务器" +:+ nl +:+ "3. 稍后重试");
    (str_in "DNS",
     "DNS解析失败，建议：" +:+ nl +:+ "1. 检查网络DNS设置" +:+ nl +:+
     "2. 尝试使用其他DNS服务器" +:+ nl +:+ "3. 使用代理服务器") ].

(** the message of the first rule that matches, the text itself if none does *)
Fixpoint first_match (rules : list ((string -> bool) * string)) (text : string) : string :=
  match rules with
  | [] => text
  | (matches, message) :: rules' =>
    if matches text then message else first_match rules' text
  end.

(** *** Ledgers that can be written, and a runtime whose download succeeds *)

(** [exists()] answers on the ledger path *)
Definition accessible (w : world) : bool :=
  match ledger w with
  | Inaccessible _ => false
  | _ => true
  end.

(** the ledger path can be looked up, and the file opened and written *)
Definition writable (w : world) : bool :=
  accessible w && match ledger_fault w with None => true | Some _ => false end.

(** [json.dumps] accepts the record: its duration has a decimal text *)
Definition dumpable (v : VideoInfo) : bool := int_fits (duration v).

(** an earlier record of the video of [sample_record], and one of another video *)
Definition stale_record : VideoInfo := {|
  id := "ABC123"; title := "Old title"; duration := 1; author := "someone";
  description := ""; file_size := "1.00 MB"; file_path := "/downloads/old.mp4";
  thumbnail := ""; download_date := "2023-12-31 08:00:00"
|}.

Definition second_record : VideoInfo := {|
  id := "XYZ789"; title := "Another video"; duration := 60; author := "someone else";
  description := ""; file_size := "2.50 MB"; file_path := "/downloads/another.mp4";
  thumbnail := ""; download_date := "2024-01-01 09:30:00"
|}.


(** a world with a directory in the place of the ledger file *)
Definition blocked_world : world :=
  set_ledger_fault (Some (OpenFails OSError)) (set_ledger (Unreadable OSError) empty_world).

(** a world whose ledger holds the first two of these records *)
Definition stocked_world : world :=
  set_ledger (Stored (dumped [stale_record; second_record])) empty_world.

(** a runtime whose engine answers with [info] and whose download ends
    with the record [v] *)
Definition succeeding_runtime (info : value) (v : VideoInfo) : runtime := {|
  lower_other := lower_other (sample_runtime info);
  int_other := int_other (sample_runtime info);
  lax_int := lax_int (sample_runtime info);
  builtin_text := builtin_text (sample_runtime info);
  extract_info := extract_info (sample_runtime info);
  build_video_info := fun _ => ret v;
|}.

(** a ledger with one good and one incomplete item *)
Definition damaged_ledger : value :=
  VList [ VDict (model_dump sample_record); VDict [ ("id", VStr "XYZ789") ] ].

(** *** Rounding to two decimals

    [hundredths s n] is the double nearest to [n / 100], negated when [s].
    [two_decimals x r]: [r] is the double nearest to the decimal [n / 100]
    for the integer [n] nearest to [100 * |x|], the even one when two are as
    near; the exact value of [|x|] is [m * 2 ^ e].  Zeros, infinities and
    nans round to themselves. *)
Definition hundredths (s : bool) (n : Z) : float :=
  match n with
  | Zpos p => nearest_float s p 100
  | _ => if s then (-0)%float else 0%float
  end.

Definition two_decimals (x r : float) : Prop :=
  match Prim2SF x with
  | SpecFloat.S754_finite s m e =>
    let num := 100 * Zpos m * 2 ^ Z.max 0 e in
    let den := 2 ^ Z.max 0 (- e) in
    exists n : Z,
      r = hundredths s n /\
      Z.abs (2 * num - 2 * n * den) <= den /\
      (Z.abs (2 * num - 2 * n * den) = den -> Z.even n = true)
  | _ => r = x
  end.

(** ** Tactics *)

Ltac run :=
  unfold bind, ret, lift, raise, try_except, print, file_exists, json_load, json_dump; cbn.

(** ** The Python model on known values *)

Example int_plain_examples :
  int_plain "1080" = Some 1080 /\ int_plain " -1_000 " = Some (-1000) /\
  int_plain "007" = Some 7 /\ int_plain "?" = None /\ int_plain "" = None /\
  int_plain "1__0" = None /\ int_plain "_1" = None /\ int_plain "1_" = None /\
  int_plain "+ 1" = None /\ int_plain "720p" = None.
Proof. repeat split; reflexivity. Qed.

Example str_split_examples :
  str_split "a&b&&c" "&" = ["a"; "b"; ""; "c"] /\
  str_split "watch?v=ABC&t=1" "v=" = ["watch?"; "ABC&t=1"] /\
  str_split "aaa" "aa" = [""; "a"] /\
  str_split "" "/" = [""] /\ str_split "x" "x" = [""; ""] /\
  str_rstrip "720pp" "p" = "720" /\ str_rstrip "p7p" "p" = "p7" /\
  str_in "v=" "a?v=1" = true /\ str_in "" "" = true /\ str_in "ab" "a" = false.
Proof. repeat split; reflexivity. Qed.

Example str_chars_examples :
  str_chars "a网b" = ["a"; "网"; "b"] /\ str_chars "" = [].
Proof. split; reflexivity. Qed.

(** true division of ints is correctly rounded, also beyond 2^53 and
    among the subnormals *)
Example int_truediv_examples :
  int_truediv 1 3 = Ok 0.33333333333333331%float /\
  int_truediv 50 100 = Ok 0.5%float /\
  int_truediv (2 ^ 60 + 1) 3 = Ok 3.843071682022823e+17%float /\
  int_truediv (2 ^ 2000) (2 ^ 1990) = Ok 1024%float /\
  int_truediv (2 ^ 2000) 1 = Raise OverflowError /\
  int_truediv 1 (2 ^ 1075) = Ok 0%float /\
  int_truediv 1 0 = Raise ZeroDivisionError /\
  float_of_int (2 ^ 53 + 1) = Ok 9007199254740992%float /\
  float_of_int (2 ^ 1024 - 1) = Raise OverflowError.
Proof. repeat split; reflexivity. Qed.

(** [round(x, 2)] rounds the binary value, not the decimal literal *)
Example round2_examples :
  round2 2.675 = 2.67%float /\ round2 1.005 = 1%float /\
  round2 0.125 = 0.12%float /\ round2 0.375 = 0.38%float /\
  round2 33.333333333333336 = 33.33%float /\ round2 50 = 50%float /\
  round2 (-0.001) = (-0)%float /\ round2 1e300 = 1e300%float /\
  round2 infinity = infinity.
Proof. repeat split; reflexivity. Qed.

Example py_truediv_examples :
  py_truediv (VInt 1) (VFloat 4) = Ok 0.25%float /\
  py_truediv (VBool true) (VInt 4) = Ok 0.25%float /\
  py_truediv VNone (VInt 4) = Raise TypeError /\
  py_truediv (VStr "1") (VInt 4) = Raise TypeError /\
  py_gt_zero VNone = Raise TypeError /\
  py_gt_zero (VFloat nan) = Ok false /\
  py_or VNone (VInt 0) = VInt 0 /\ py_or (VInt 0) VNone = VNone /\
  py_or (VFloat 7) (VInt 3) = VFloat 7.
Proof. repeat split; reflexivity. Qed.

(** ** The service on sample runs *)

(** a directory in the place of the ledger file: loading prints the error
    and returns the empty list; saving raises at [open] and stores nothing *)
Example unwritable_ledger_examples :
  load_videos_info (sample_runtime VNone) blocked_world
  = (Ok [], set_stdout ["Error loading videos info: OSError"] blocked_world) /\
  save_video_info (sample_runtime VNone) sample_record blocked_world
  = (Raise OSError, set_stdout ["Error loading videos info: OSError"] blocked_world) /\
  records (sample_runtime VNone)
    (exec (save_video_info (sample_runtime VNone) sample_record) blocked_world) = [] /\
  save_video_info (sample_runtime VNone) sample_record
    (set_ledger (Inaccessible OSError) empty_world)
  = (Raise OSError, set_ledger (Inaccessible OSError) empty_world) /\
  save_video_info (sample_runtime VNone) sample_record
    (set_ledger_fault (Some (WriteFails OSError)) stocked_world)
  = (Raise OSError, set_ledger truncated (set_ledger_fault (Some (WriteFails OSError)) stocked_world)).
Proof. repeat split; reflexivity. Qed.

Example ledger_examples :
  records (sample_runtime VNone) (exec (save_video_info (sample_runtime VNone) sample_record) empty_world)
  = [sample_record] /\
  load_videos_info (sample_runtime VNone) (set_ledger (Unreadable ValueError) empty_world)
  = (Ok [], set_stdout ["Error loading videos info: ValueError"]
              (set_ledger (Unreadable ValueError) empty_world)) /\
  load_videos_info (sample_runtime VNone) (set_ledger (Stored (VDict [])) empty_world)
  = (Ok [], set_ledger (Stored (VDict [])) empty_world) /\
  fst (load_videos_info (sample_runtime VNone)
         (set_ledger (Stored (VList [VDict [ ("id", VStr "ABC123") ]])) empty_world))
  = Ok [].
Proof. repeat split; reflexivity. Qed.

(** POST /download/ with a watch url: the client gets the id to poll, the
    entry is queued and one task is enqueued *)
Example download_scenario :
  download "https://www.youtube.com/watch?v=ABC123" None empty_world
  = (Ok [ ("status", VStr "success"); ("message", VStr "Download started");
          ("video_id", VStr "ABC123") ],
     set_background_tasks [("https://www.youtube.com/watch?v=ABC123", None)]
       (set_download_progress
          {[ "ABC123" := [ ("progress", VInt 0); ("status", VStr "queued") ] ]} empty_world)) /\
  fst (get_progress "ABC123"
         (exec (download "https://www.youtube.com/watch?v=ABC123" None) empty_world))
  = Ok [ ("progress", VInt 0); ("status", VStr "queued") ] /\
  fst (get_progress "ABC123" empty_world) = Ok [ ("status", VStr "not_found") ].
Proof. repeat split; reflexivity. Qed.

(** ** Python strings: lemmas *)

Lemma append_nil (t : string) : EmptyString +:+ t = t.
Proof. reflexivity. Qed.

Lemma append_cons (c : ascii) (s t : string) : String c s +:+ t = String c (s +:+ t).
Proof. reflexivity. Qed.

Lemma append_empty_r (s : string) : s +:+ EmptyString = s.
Proof.
  induction s as [|c s IH]; [reflexivity|]. now rewrite append_cons, IH.
Qed.

Lemma append_snoc (a : string) (c : ascii) (b : string) :
  (a +:+ String c EmptyString) +:+ b = a +:+ String c b.
Proof.
  induction a as [|d a IH]; [reflexivity|]. now rewrite !append_cons, IH.
Qed.

Lemma prefix_char (x c : ascii) (s : string) :
  String.prefix (String x EmptyString) (String c s) = Ascii.eqb c x.
Proof.
  simpl. destruct (ascii_dec x c) as [->|Hne].
  - rewrite Ascii.eqb_refl. now destruct s.
  - symmetry. apply Ascii.eqb_neq. congruence.
Qed.

Lemma digit_not_char (x c : ascii) :
  is_digit x = false -> is_digit c = true -> Ascii.eqb c x = false.
Proof.
  intros Hx Hc. destruct (Ascii.eqb_spec c x) as [->|]; [congruence | reflexivity].
Qed.

Lemma digits_no_char (x : ascii) (s : string) :
  is_digit x = false -> str_forall is_digit s = true -> no_char x s = true.
Proof.
  intros Hx. induction s as [|c s IH]; simpl; [reflexivity|].
  intros [Hc Hs]%andb_prop. unfold no_char in *. simpl.
  rewrite (digit_not_char x c Hx Hc). simpl. auto.
Qed.

Lemma str_in_clean (x : ascii) (s : string) :
  no_char x s = true -> str_in (String x EmptyString) s = false.
Proof.
  induction s as [|c s IH]; [reflexivity|].
  unfold no_char. simpl str_forall. intros [Hc Hs]%andb_prop.
  cbn [str_in]. rewrite prefix_char.
  apply negb_true_iff in Hc. rewrite Hc. simpl. now apply IH.
Qed.

Lemma str_in_here (x : ascii) (a b : string) :
  str_in (String x EmptyString) (a +:+ String x b) = true.
Proof.
  induction a as [|c a IH]; rewrite ?append_nil, ?append_cons; cbn [str_in].
  - rewrite prefix_char, Ascii.eqb_refl. reflexivity.
  - rewrite IH. apply orb_true_r.
Qed.

Lemma split_from_clean (x : ascii) (cur s : string) :
  no_char x s = true ->
  split_from (String x EmptyString) O cur s = [cur +:+ s].
Proof.
  revert cur. induction s as [|c s IH]; intros cur.
  - intros _. cbn [split_from]. now rewrite append_empty_r.
  - unfold no_char. simpl str_forall. intros [Hc Hs]%andb_prop.
    cbn [split_from]. rewrite prefix_char.
    apply negb_true_iff in Hc. rewrite Hc.
    rewrite IH by exact Hs. now rewrite append_snoc.
Qed.

Lemma split_from_at (x : ascii) (cur a b : string) :
  no_char x a = true ->
  split_from (String x EmptyString) O cur (a +:+ String x b)
  = (cur +:+ a) :: split_from (String x EmptyString) O EmptyString b.
Proof.
  revert cur. induction a as [|c a IH]; intros cur.
  - intros _. rewrite append_nil. cbn [split_from].
    rewrite prefix_char, Ascii.eqb_refl. now rewrite append_empty_r.
  - unfold no_char. simpl str_forall. intros [Hc Ha]%andb_prop.
    rewrite append_cons. cbn [split_from]. rewrite prefix_char.
    apply negb_true_iff in Hc. rewrite Hc.
    rewrite IH by exact Ha. now rewrite append_snoc.
Qed.

(** a label [W x H] splits at its only x *)
Lemma str_split_WxH (W H : string) :
  str_forall is_digit W = true -> str_forall is_digit H = true ->
  str_split (W +:+ String "x" H) "x" = [W; H].
Proof.
  intros HW HH. unfold str_split.
  rewrite split_from_at by (apply digits_no_char; [reflexivity | exact HW]).
  rewrite split_from_clean by (apply digits_no_char; [reflexivity | exact HH]).
  reflexivity.
Qed.

Lemma str_rstrip_suffix (x : ascii) (s : string) :
  no_char x s = true ->
  str_rstrip (s +:+ String x EmptyString) (String x EmptyString) = s.
Proof.
  induction s as [|c s IH].
  - intros _. rewrite append_nil. simpl. now rewrite Ascii.eqb_refl.
  - unfold no_char. simpl str_forall. intros [Hc Hs]%andb_prop.
    rewrite append_cons. cbn [str_rstrip]. rewrite IH by exact Hs.
    apply negb_true_iff in Hc.
    destruct s; [|reflexivity]. simpl. now rewrite Hc.
Qed.

Lemma digit_not_space (c : ascii) : is_digit c = true -> is_space c = false.
Proof.
  unfold is_digit, is_space. intros [H1 H2]%andb_prop.
  apply Z.leb_le in H1, H2.
  destruct (Z.leb_spec 9 (code c)), (Z.leb_spec (code c) 13), (Z.eqb_spec (code c) 32);
    simpl; try reflexivity; lia.
Qed.

Lemma digit_plain (c : ascii) : is_digit c = true -> is_plain c = true.
Proof.
  unfold is_digit, is_plain. intros [H1 H2]%andb_prop.
  apply Z.leb_le in H1, H2. apply orb_true_iff. right.
  apply andb_true_iff. split; apply Z.leb_le; lia.
Qed.

Lemma digits_plain (s : string) :
  str_forall is_digit s = true -> str_forall is_plain s = true.
Proof.
  induction s as [|c s IH]; simpl; [reflexivity|].
  intros [Hc Hs]%andb_prop. rewrite (digit_plain c Hc). simpl. auto.
Qed.

Lemma int_digits_run (s : string) (acc : Z) (n : nat) :
  str_forall is_digit s = true ->
  int_digits s acc n = Some (decimal acc s, (n + String.length s)%nat).
Proof.
  revert acc n. induction s as [|c s IH]; intros acc n.
  - intros _. simpl. now rewrite Nat.add_0_r.
  - simpl str_forall. intros [Hc Hs]%andb_prop.
    cbn [int_digits decimal String.length]. rewrite Hc.
    rewrite IH by exact Hs. now rewrite Nat.add_succ_r.
Qed.

(** [int] of a run of at most 4300 digits is its decimal value. *)
Lemma int_plain_digits (s : string) :
  s <> EmptyString -> str_forall is_digit s = true ->
  (String.length s <= int_max_str_digits)%nat ->
  int_plain s = Some (decimal 0 s).
Proof.
  destruct s as [|d s]; [congruence|]. intros _.
  simpl str_forall. intros [Hd Hs]%andb_prop Hlen.
  unfold int_plain. cbn [str_lstrip_space]. rewrite (digit_not_space d Hd).
  rewrite (digit_not_char "-" d eq_refl Hd), (digit_not_char "+" d eq_refl Hd).
  rewrite Hd, (int_digits_run s _ _ Hs).
  cbn [String.length] in Hlen.
  destruct (Nat.ltb_spec int_max_str_digits (1 + String.length s)) as [Hlt|_]; [lia|].
  reflexivity.
Qed.

Lemma py_int_digits (py : runtime) (s : string) :
  s <> EmptyString -> str_forall is_digit s = true ->
  (String.length s <= int_max_str_digits)%nat ->
  py_int py s = Ok (decimal 0 s).
Proof.
  intros Hne Hs Hlen. unfold py_int.
  now rewrite (digits_plain s Hs), (int_plain_digits s Hne Hs Hlen).
Qed.

(** ** The stable descending sort: lemmas *)

Section Sorting.

Context {A : Type}.

Lemma insert_desc_perm (k : Z) (x : A) (l : list (Z * A)) :
  Permutation (insert_desc k x l) ((k, x) :: l).
Proof.
  induction l as [|[k' y] l IH]; simpl; [reflexivity|].
  destruct (k <? k'); [|reflexivity].
  rewrite IH. apply perm_swap.
Qed.

Lemma sort_desc_perm (l : list (Z * A)) : Permutation (sort_desc l) l.
Proof.
  induction l as [|[k x] l IH]; simpl; [reflexivity|].
  rewrite insert_desc_perm. now constructor.
Qed.

Lemma insert_desc_sorted (k : Z) (x : A) (l : list (Z * A)) :
  StronglySorted desc l -> StronglySorted desc (insert_desc k x l).
Proof.
  induction l as [|[k' y] l IH]; intros Hs; simpl.
  - constructor; constructor.
  - inversion Hs as [|? ? Hl Hall]; subst.
    destruct (Z.ltb_spec k k') as [Hlt|Hge].
    + constructor; [now apply IH|].
      eapply Permutation_Forall; [symmetry; apply insert_desc_perm|].
      constructor; [unfold desc; simpl; lia | exact Hall].
    + constructor; [exact Hs|].
      constructor; [unfold desc; simpl; lia|].
      eapply List.Forall_impl; [|exact Hall].
      intros [k'' z]. unfold desc. simpl. lia.
Qed.

Lemma sort_desc_sorted (l : list (Z * A)) : StronglySorted desc (sort_desc l).
Proof.
  induction l as [|[k x] l IH]; simpl; [constructor|].
  now apply insert_desc_sorted.
Qed.

(** stability: inserting leaves the elements of each key in their order *)
Lemma insert_desc_stable (j k : Z) (x : A) (l : list (Z * A)) :
  List.filter (with_key j) (insert_desc k x l) = List.filter (with_key j) ((k, x) :: l).
Proof.
  induction l as [|[k' y] l IH]; [reflexivity|].
  cbn [insert_desc]. destruct (Z.ltb_spec k k') as [Hlt|Hge]; [|reflexivity].
  cbn [List.filter] in *. rewrite IH. unfold with_key. cbn [fst].
  destruct (Z.eqb_spec k' j), (Z.eqb_spec k j); try reflexivity; lia.
Qed.

Lemma sort_desc_stable (j : Z) (l : list (Z * A)) :
  List.filter (with_key j) (sort_desc l) = List.filter (with_key j) l.
Proof.
  induction l as [|[k x] l IH]; [reflexivity|].
  cbn [sort_desc fold_right fst snd]. rewrite insert_desc_stable.
  cbn [List.filter]. fold (sort_desc l). now rewrite IH.
Qed.

Lemma map_snd_combine (ks : list Z) (xs : list A) :
  List.length ks = List.length xs -> map snd (combine ks xs) = xs.
Proof.
  revert xs. induction ks as [|k ks IH]; intros [|x xs]; simpl; try congruence.
  intros [= Hlen]. now rewrite IH.
Qed.

End Sorting.

Lemma rmap_list_Forall2 {A B} (f : A -> result B) (l : list A) (bs : list B) :
  rmap_list f l = Ok bs -> Forall2 (fun a b => f a = Ok b) l bs.
Proof.
  revert bs. induction l as [|a l IH]; intros bs; simpl.
  - intros [= <-]. constructor.
  - destruct (f a) as [b|e] eqn:Hfa; simpl; [|discriminate].
    destruct (rmap_list f l) as [bs'|e]; simpl; [|discriminate].
    intros [= <-]. constructor; auto.
Qed.

(** ** FormatLister: the key and the ranking *)

Lemma no_char_app (x : ascii) (a b : string) :
  no_char x (a +:+ b) = no_char x a && no_char x b.
Proof.
  unfold no_char. induction a as [|c a IH]; [reflexivity|].
  rewrite append_cons. simpl. now rewrite IH, andb_assoc.
Qed.

Lemma sort_key_WxH (py : runtime) (x : dict) (W H : string) :
  str_forall is_digit W = true ->
  H <> EmptyString -> str_forall is_digit H = true ->
  (String.length H <= int_max_str_digits)%nat ->
  dict_lookup x "resolution" = Some (VStr (W +:+ "x" +:+ H)) ->
  sort_key py x = Ok (decimal 0 H).
Proof.
  intros HW Hne HH Hlen Hres.
  change ("x" +:+ H) with (String "x" H) in Hres.
  unfold sort_key, dict_item. rewrite Hres. cbn [rbind is_str].
  pose proof (str_in_here "x" W H) as Hin.
  destruct (String.eqb_spec (W +:+ String "x" H) "unknown") as [Heq|_].
  - rewrite Heq in Hin. discriminate Hin.
  - rewrite Hin, (str_split_WxH W H HW HH). cbn [nth_error].
    now apply py_int_digits.
Qed.

Lemma sort_key_Np (py : runtime) (x : dict) (N : string) :
  N <> EmptyString -> str_forall is_digit N = true ->
  (String.length N <= int_max_str_digits)%nat ->
  dict_lookup x "resolution" = Some (VStr (N +:+ "p")) ->
  sort_key py x = Ok (decimal 0 N).
Proof.
  intros Hne HN Hlen Hres.
  unfold sort_key, dict_item. rewrite Hres. cbn [rbind is_str].
  assert (Hx : str_in "x" (N +:+ "p") = false).
  { apply str_in_clean. rewrite no_char_app.
    now rewrite (digits_no_char "x" N eq_refl HN). }
  destruct (String.eqb_spec (N +:+ "p") "unknown") as [Heq|_].
  - destruct N as [|d N]; [congruence|].
    rewrite append_cons in Heq. injection Heq as -> _.
    simpl in HN. discriminate HN.
  - rewrite Hx, (str_rstrip_suffix "p" N (digits_no_char "p" N eq_refl HN)).
    now apply py_int_digits.
Qed.

Lemma sort_key_unknown (py : runtime) (x : dict) :
  dict_lookup x "resolution" = Some (VStr "unknown") -> sort_key py x = Ok 0.
Proof. intros Hres. unfold sort_key, dict_item. now rewrite Hres. Qed.

Lemma keyed_combine (py : runtime) (formats : list dict) (keys : list Z) :
  Forall2 (fun x k => sort_key py x = Ok k) formats keys ->
  keyed py (combine keys formats).
Proof. induction 1; simpl; constructor; auto. Qed.

Lemma keyed_key_of (py : runtime) (kx : Z * dict) :
  sort_key py (snd kx) = Ok (fst kx) -> key_of py (snd kx) = fst kx.
Proof. unfold key_of. now intros ->. Qed.

Lemma keyed_filter (py : runtime) (j : Z) (l : list (Z * dict)) :
  keyed py l ->
  List.filter (has_key py j) (map snd l) = map snd (List.filter (with_key j) l).
Proof.
  induction 1 as [|kx l Hk _ IH]; [reflexivity|].
  cbn [map List.filter]. unfold has_key at 1, with_key at 1.
  rewrite (keyed_key_of py kx Hk), IH.
  now destruct (fst kx =? j).
Qed.

Lemma keyed_sorted (py : runtime) (l : list (Z * dict)) :
  keyed py l -> StronglySorted desc l ->
  StronglySorted (ranks_before py) (map snd l).
Proof.
  intros Hk Hs. induction Hs as [|kx l Hs IH Hall]; [constructor|].
  inversion Hk as [|? ? Hkx Hkl]; subst.
  cbn [map]. constructor; [now apply IH|].
  clear IH Hs Hk. revert Hkl. induction Hall as [|ky l Hd _ IHl]; intros Hkl; [constructor|].
  inversion Hkl as [|? ? Hky Hkl']; subst.
  cbn [map]. constructor; [|now apply IHl].
  unfold ranks_before. rewrite (keyed_key_of py kx Hkx), (keyed_key_of py ky Hky).
  exact Hd.
Qed.

(** what [sort_formats] returns: the same formats, keys not increasing, and
    the formats of each key in the order they came in *)
Lemma sort_formats_ranked (py : runtime) (formats ranked : list dict) :
  sort_formats py formats = Ok ranked ->
  Permutation formats ranked /\
  Forall (fun x => exists k, sort_key py x = Ok k) ranked /\
  StronglySorted (ranks_before py) ranked /\
  forall j, List.filter (has_key py j) ranked = List.filter (has_key py j) formats.
Proof.
  unfold sort_formats.
  destruct (rmap_list (sort_key py) formats) as [keys|e] eqn:Hkeys; [|discriminate].
  cbn [rbind]. intros [= <-].
  apply rmap_list_Forall2 in Hkeys.
  assert (Hlen : List.length keys = List.length formats)
    by (symmetry; eapply Forall2_length; exact Hkeys).
  assert (Hin : keyed py (combine keys formats)) by now apply keyed_combine.
  assert (Hout : keyed py (sort_desc (combine keys formats))).
  { eapply Permutation_Forall; [symmetry; apply sort_desc_perm | exact Hin]. }
  repeat split.
  - rewrite <- (map_snd_combine keys formats Hlen) at 1.
    apply Permutation_map. symmetry. apply sort_desc_perm.
  - apply Forall_map. eapply List.Forall_impl; [|exact Hout].
    intros kx Hkx. now exists (fst kx).
  - apply keyed_sorted; [exact Hout | apply sort_desc_sorted].
  - intros j. rewrite (keyed_filter py j _ Hout), sort_desc_stable.
    rewrite <- (keyed_filter py j _ Hin). now rewrite map_snd_combine.
Qed.

(** a label W x ?: the part after x is not an integer and [int] raises *)
Lemma sort_key_width_only (py : runtime) (x : dict) (W : string) :
  str_forall is_digit W = true ->
  dict_lookup x "resolution" = Some (VStr (W +:+ "x?")) ->
  sort_key py x = Raise ValueError.
Proof.
  intros HW Hres. change ("x?") with (String "x" "?") in Hres.
  unfold sort_key, dict_item. rewrite Hres. cbn [rbind is_str].
  pose proof (str_in_here "x" W "?") as Hin.
  destruct (String.eqb_spec (W +:+ String "x" "?") "unknown") as [Heq|_].
  - rewrite Heq in Hin. discriminate Hin.
  - rewrite Hin. unfold str_split.
    rewrite split_from_at by (apply digits_no_char; [reflexivity | exact HW]).
    reflexivity.
Qed.

(** in a ranking, what follows a format has no greater key *)
Lemma ranked_after (py : runtime) (before after : list dict) (x y : dict) :
  StronglySorted (ranks_before py) (before ++ x :: after) ->
  In y after -> key_of py y <= key_of py x.
Proof.
  induction before as [|b before IH]; cbn [app]; intros Hsorted Hy.
  - apply StronglySorted_inv in Hsorted as [_ Hall].
    rewrite List.Forall_forall in Hall. exact (Hall y Hy).
  - apply StronglySorted_inv in Hsorted as [Hsorted _]. now apply IH.
Qed.

(** C4: [get_video_formats] ranks the listed formats by a stable sort on
    a key that does not increase along the result: the key of a label
    W x H is the integer H, the key of a label Np is the integer N, the key
    of the label unknown is 0, so that a format labelled unknown is followed
    by no format of a positive key; the formats of heights 1080, 720,
    unknown and 480 come out as 1080, 720, 480, unknown. *)
Theorem format_ranking (py : runtime) (W H N : string) (formats ranked : list dict) :
  str_forall is_digit W = true ->
  H <> EmptyString -> str_forall is_digit H = true ->
  (String.length H <= int_max_str_digits)%nat ->
  N <> EmptyString -> str_forall is_digit N = true ->
  (String.length N <= int_max_str_digits)%nat ->
  sort_formats py formats = Ok ranked ->
  (forall x, dict_lookup x "resolution" = Some (VStr (W +:+ "x" +:+ H)) ->
             sort_key py x = Ok (decimal 0 H)) /\
  (forall x, dict_lookup x "resolution" = Some (VStr (N +:+ "p")) ->
             sort_key py x = Ok (decimal 0 N)) /\
  (forall x, dict_lookup x "resolution" = Some (VStr "unknown") ->
             sort_key py x = Ok 0) /\
  Permutation formats ranked /\
  Forall (fun x => exists k, sort_key py x = Ok k) ranked /\
  StronglySorted (ranks_before py) ranked /\
  (forall j, List.filter (has_key py j) ranked = List.filter (has_key py j) formats) /\
  (forall before x after y,
     ranked = before ++ x :: after ->
     dict_lookup x "resolution" = Some (VStr "unknown") ->
     In y after -> key_of py y <= 0) /\
  match fst (get_video_formats (sample_runtime (sample_info sample_formats))
               "https://www.youtube.com/watch?v=ABC123" empty_world) with
  | Ok response =>
    listed_resolutions response
    = [ VStr "1920x1080"; VStr "720p"; VStr "480p"; VStr "unknown" ]
  | Raise _ => False
  end.
Proof.
  intros HW HHne HH HHlen HNne HN HNlen Hsort.
  split; [intros x; now apply sort_key_WxH|].
  split; [intros x; now apply sort_key_Np|].
  split; [intros x; now apply sort_key_unknown|].
  destruct (sort_formats_ranked py formats ranked Hsort) as (Hperm & Hkeys & Hsorted & Hstable).
  repeat (split; [assumption|]).
  split.
  - intros before x after y Hranked Hx Hy. rewrite Hranked in Hsorted.
    pose proof (ranked_after py before after x y Hsorted Hy) as Hle.
    unfold key_of in Hle at 2. now rewrite (sort_key_unknown py x Hx) in Hle.
  - vm_compute. reflexivity.
Qed.

Lemma format_ranking_witness :
  sort_formats (sample_runtime VNone) sample_listed = Ok sample_ranked /\
  sort_key (sample_runtime VNone) [ ("resolution", VStr "1920x1080") ] = Ok 1080 /\
  sort_key (sample_runtime VNone) [ ("resolution", VStr "720p") ] = Ok 720 /\
  StronglySorted (ranks_before (sample_runtime VNone)) sample_ranked /\
  (forall y, In y [ [ ("resolution", VStr "unknown") ] ] ->
             key_of (sample_runtime VNone) y <= 0).
Proof.
  pose (tied := [ [ ("resolution", VStr "720p") ]; [ ("resolution", VStr "unknown") ];
                  [ ("resolution", VStr "unknown") ] ]).
  assert (Htied : sort_formats (sample_runtime VNone) tied = Ok tied) by reflexivity.
  destruct (format_ranking (sample_runtime VNone) "1920" "1080" "720" tied tied)
    as (_ & _ & _ & _ & _ & _ & _ & Hlast & _);
    try reflexivity; try discriminate; try (vm_compute; lia).
  assert (Hsort : sort_formats (sample_runtime VNone) sample_listed = Ok sample_ranked)
    by reflexivity.
  destruct (format_ranking (sample_runtime VNone) "1920" "1080" "720"
              sample_listed sample_ranked) as (HWxH & HNp & _ & _ & _ & Hsorted & _);
    try reflexivity; try discriminate; try (vm_compute; lia).
  split; [exact Hsort|].
  split; [apply (HWxH [ ("resolution", VStr "1920x1080") ]); reflexivity|].
  split; [apply (HNp [ ("resolution", VStr "720p") ]); reflexivity|].
  split; [exact Hsorted|].
  intros y.
  exact (Hlast [ [ ("resolution", VStr "720p") ] ]
           [ ("resolution", VStr "unknown") ] [ [ ("resolution", VStr "unknown") ] ] y
           eq_refl eq_refl).
Defined.

(** ** VideoRecordStore *)

Lemma VideoInfo_new_model_dump (py : runtime) (v : VideoInfo) :
  VideoInfo_new py (VDict (model_dump v)) = Ok v.
Proof. destruct v. reflexivity. Qed.

Lemma rmap_list_model_dump (py : runtime) (l : list VideoInfo) :
  rmap_list (VideoInfo_new py) (map (fun v => VDict (model_dump v)) l) = Ok l.
Proof.
  induction l as [|v l IH]; [reflexivity|].
  cbn [map rmap_list]. rewrite VideoInfo_new_model_dump, IH. reflexivity.
Qed.

(** the body of the try reads and changes nothing *)
Lemma read_videos_info_state (py : runtime) (w : world) :
  snd (read_videos_info py w) = w.
Proof.
  unfold read_videos_info. run. destruct (ledger w) as [|e|e|data]; cbn; try reflexivity.
  destruct (py_iter data) as [items|e]; cbn; try reflexivity.
Qed.

Lemma load_videos_info_cases (py : runtime) (w : world) :
  load_videos_info py w =
  match ledger w with
  | NoFile => (Ok [], w)
  | Inaccessible e => (Raise e, w)
  | _ =>
    match fst (read_videos_info py w) with
    | Ok l => (Ok l, w)
    | Raise e =>
      (Ok [], set_stdout (stdout w ++ ["Error loading videos info: " +:+ exn_str py e]) w)
    end
  end.
Proof.
  pose proof (read_videos_info_state py w) as Hw.
  unfold load_videos_info. run.
  destruct (ledger w) as [|e|e|data] eqn:Hl; cbn; [reflexivity|reflexivity| |];
    destruct (read_videos_info py w) as [[l|e'] w'] eqn:Hr; cbn in *; subst; reflexivity.
Qed.

Lemma load_videos_info_ok (py : runtime) (w : world) :
  accessible w = true -> exists l w', load_videos_info py w = (Ok l, w').
Proof.
  unfold accessible. rewrite load_videos_info_cases.
  destruct (ledger w); [eauto|discriminate| |]; intros _;
    destruct (fst (read_videos_info py w)); eauto.
Qed.

Lemma load_videos_info_records (py : runtime) (w : world) :
  accessible w = true ->
  load_videos_info py w = (Ok (records py w), exec (load_videos_info py) w).
Proof.
  intros Hw. unfold records, exec.
  destruct (load_videos_info_ok py w Hw) as (l & w' & ->). reflexivity.
Qed.

(** a load leaves the file, and what stands in the way of writing it, alone *)
Lemma load_videos_info_ledger (py : runtime) (w : world) :
  ledger (exec (load_videos_info py) w) = ledger w /\
  ledger_fault (exec (load_videos_info py) w) = ledger_fault w.
Proof.
  unfold exec. rewrite load_videos_info_cases.
  destruct (ledger w) eqn:Hl; [now split|now split| |];
    destruct (fst (read_videos_info py w)); now split.
Qed.

(** reading back what was written *)
Lemma load_dumped (py : runtime) (videos : list VideoInfo) (w : world) :
  load_videos_info py (set_ledger (Stored (dumped videos)) w)
  = (Ok videos, set_ledger (Stored (dumped videos)) w).
Proof.
  rewrite load_videos_info_cases. cbn [ledger set_ledger].
  unfold read_videos_info, dumped. run.
  now rewrite rmap_list_model_dump.
Qed.

Lemma records_dumped (py : runtime) (videos : list VideoInfo) (w : world) :
  records py (set_ledger (Stored (dumped videos)) w) = videos.
Proof. unfold records. now rewrite load_dumped. Qed.

(** ints of at most 18 digits are far below the limit *)
Lemma int_fits_small (z : Z) : Z.abs z < 10 ^ 18 -> int_fits z = true.
Proof.
  intros Hz. unfold int_fits. apply Z.ltb_lt.
  eapply Z.lt_le_trans; [exact Hz|].
  apply Z.pow_le_mono_r; [lia|]. unfold int_max_str_digits. lia.
Qed.

(** [json.dumps] accepts a list of records when it accepts their durations *)
Lemma json_ok_dumped (videos : list VideoInfo) :
  json_ok (dumped videos) = forallb dumpable videos.
Proof.
  unfold dumped. cbn [json_ok].
  induction videos as [|v l IH]; [reflexivity|].
  cbn [map forallb]. rewrite IH. f_equal.
  unfold dumpable. cbn [model_dump json_ok andb]. apply andb_true_r.
Qed.





Lemma dumpable_upsert (r : VideoInfo) (l : list VideoInfo) :
  dumpable r = true -> forallb dumpable l = true ->
  forallb dumpable (List.filter (other_id r) l ++ [r]) = true.
Proof.
  intros Hr Hl. rewrite forallb_app. cbn [forallb]. rewrite Hr, andb_true_r.
  induction l as [|v l IH]; [reflexivity|].
  cbn [forallb] in Hl. apply andb_prop in Hl as [Hv Hl].
  cbn [List.filter]. destruct (other_id r v); [|now apply IH].
  cbn [forallb]. now rewrite Hv, IH.
Qed.

(** lines 69 to 75 where [exists()] answers: the records of another id
    followed by the new one are handed to the write *)
Lemma save_video_info_dump (py : runtime) (r : VideoInfo) (w : world) :
  accessible w = true ->
  save_video_info py r w
  = json_dump (dumped (List.filter (other_id r) (records py w) ++ [r]))
      (exec (load_videos_info py) w).
Proof.
  intros Hw. unfold save_video_info, bind.
  rewrite (load_videos_info_records py w Hw). reflexivity.
Qed.

(** a save where [exists()] raises: raised to the caller *)
Lemma save_video_info_inaccessible (py : runtime) (r : VideoInfo) (w : world) (e : exn) :
  ledger w = Inaccessible e -> save_video_info py r w = (Raise e, w).
Proof.
  intros He. unfold save_video_info, bind.
  rewrite load_videos_info_cases, He. reflexivity.
Qed.

(** a save returns exactly where [exists()] answers, the file can be
    opened and written, and [json.dumps] accepts the list *)
Lemma save_video_info_run (py : runtime) (r : VideoInfo) (w : world) :
  writable w = true ->
  forallb dumpable (List.filter (other_id r) (records py w) ++ [r]) = true ->
  save_video_info py r w
  = (Ok tt, set_ledger (Stored (dumped (List.filter (other_id r) (records py w) ++ [r])))
              (exec (load_videos_info py) w)).
Proof.
  unfold writable. intros Hw Hl. apply andb_prop in Hw as [Hacc Hfault].
  rewrite (save_video_info_dump py r w Hacc). unfold json_dump.
  destruct (load_videos_info_ledger py w) as [_ ->].
  destruct (ledger_fault w); [discriminate|].
  now rewrite json_ok_dumped, Hl.
Qed.

Lemma save_video_info_returned (py : runtime) (r : VideoInfo) (w : world) :
  fst (save_video_info py r w) = Ok tt ->
  writable w = true /\
  forallb dumpable (List.filter (other_id r) (records py w) ++ [r]) = true.
Proof.
  unfold writable. destruct (accessible w) eqn:Hacc.
  - rewrite (save_video_info_dump py r w Hacc). unfold json_dump.
    destruct (load_videos_info_ledger py w) as [_ ->].
    rewrite json_ok_dumped.
    destruct (ledger_fault w) as [[e|e]|]; [discriminate| |];
      destruct (forallb dumpable _); cbn [negb fst]; try discriminate.
    now split.
  - unfold accessible in Hacc. destruct (ledger w) as [|e|e|data] eqn:He; try discriminate.
    rewrite (save_video_info_inaccessible py r w e He). discriminate.
Qed.

(** a save that returned has written the upserted list *)
Lemma save_video_info_returns (py : runtime) (r : VideoInfo) (w : world) :
  fst (save_video_info py r w) = Ok tt ->
  save_video_info py r w
  = (Ok tt, set_ledger (Stored (dumped (List.filter (other_id r) (records py w) ++ [r])))
              (exec (load_videos_info py) w)).
Proof.
  intros Hsave. destruct (save_video_info_returned py r w Hsave) as [Hw Hl].
  now apply save_video_info_run.
Qed.

(** a save whose file cannot be opened for writing: the ledger is untouched *)
Lemma save_video_info_open_fails (py : runtime) (r : VideoInfo) (w : world) (e : exn) :
  accessible w = true -> ledger_fault w = Some (OpenFails e) ->
  save_video_info py r w = (Raise e, exec (load_videos_info py) w).
Proof.
  intros Hacc Hfault. rewrite (save_video_info_dump py r w Hacc). unfold json_dump.
  destruct (load_videos_info_ledger py w) as [_ ->]. now rewrite Hfault.
Qed.

(** a save of a duration without a decimal text: [json.dumps] raises once
    the file has been opened, and the ledger is left empty *)
Lemma save_video_info_dumps_fails (py : runtime) (r : VideoInfo) (w : world) :
  accessible w = true -> ledger_fault w = None -> dumpable r = false ->
  save_video_info py r w
  = (Raise ValueError, set_ledger truncated (exec (load_videos_info py) w)) /\
  records py (exec (save_video_info py r) w) = [].
Proof.
  intros Hacc Hfault Hr.
  assert (save_video_info py r w
          = (Raise ValueError, set_ledger truncated (exec (load_videos_info py) w))) as Hsave.
  { rewrite (save_video_info_dump py r w Hacc). unfold json_dump.
    destruct (load_videos_info_ledger py w) as [_ ->]. rewrite Hfault.
    rewrite json_ok_dumped, forallb_app. cbn [forallb]. rewrite Hr.
    now rewrite andb_false_r. }
  split; [exact Hsave|].
  unfold exec at 1. rewrite Hsave. reflexivity.
Qed.

Lemma load_after_save (py : runtime) (r : VideoInfo) (w : world) :
  fst (save_video_info py r w) = Ok tt ->
  load_videos_info py (exec (save_video_info py r) w)
  = (Ok (List.filter (other_id r) (records py w) ++ [r]), exec (save_video_info py r) w).
Proof.
  intros Hsave. unfold exec at 1 2. rewrite (save_video_info_returns py r w Hsave).
  cbn [snd]. apply load_dumped.
Qed.

Lemma records_after_save (py : runtime) (r : VideoInfo) (w : world) :
  fst (save_video_info py r w) = Ok tt ->
  records py (exec (save_video_info py r) w)
  = List.filter (other_id r) (records py w) ++ [r].
Proof. intros Hsave. unfold records. now rewrite load_after_save. Qed.


(** the next save returns when [json.dumps] accepts its record *)
Lemma save_video_info_next (py : runtime) (r1 r2 : VideoInfo) (w : world) :
  fst (save_video_info py r1 w) = Ok tt -> dumpable r2 = true ->
  fst (save_video_info py r2 (exec (save_video_info py r1) w)) = Ok tt.
Proof.
  intros Hsave Hr2. destruct (save_video_info_returned py r1 w Hsave) as [Hw Hl].
  rewrite save_video_info_run; [reflexivity| |].
  - unfold exec. rewrite (save_video_info_returns py r1 w Hsave). cbn [snd].
    unfold writable in *. apply andb_prop in Hw as [_ Hfault].
    unfold accessible. cbn [ledger set_ledger ledger_fault].
    destruct (load_videos_info_ledger py w) as [_ ->]. exact Hfault.
  - rewrite (records_after_save py r1 w Hsave). now apply dumpable_upsert.
Qed.





(** C8, on the code: [exists()] stands before the try, so what it raises
    reaches the caller, as on a ledger path that may not be looked up.
    Where [exists()] answers, [load_videos_info] returns a list: the empty
    list when the file does not exist, and, when reading or validating the
    file raises, the empty list after printing the error. *)
Theorem load_videos_info_exists_raises (py : runtime) (w : world) :
  (forall e, ledger w = Inaccessible e -> load_videos_info py w = (Raise e, w)) /\
  load_videos_info py (set_ledger (Inaccessible OSError) empty_world)
  = (Raise OSError, set_ledger (Inaccessible OSError) empty_world) /\
  (accessible w = true -> exists l w', load_videos_info py w = (Ok l, w')) /\
  (ledger w = NoFile -> load_videos_info py w = (Ok [], w)) /\
  (forall e, ledger w <> NoFile -> accessible w = true ->
     fst (read_videos_info py w) = Raise e ->
     load_videos_info py w
     = (Ok [], set_stdout (stdout w ++ ["Error loading videos info: " +:+ exn_str py e]) w)) /\
  (forall e, ledger w = Unreadable e -> fst (read_videos_info py w) = Raise e).
Proof.
  split; [|split; [|split; [|split; [|split]]]].
  - intros e He. rewrite load_videos_info_cases. now rewrite He.
  - reflexivity.
  - apply load_videos_info_ok.
  - intros Hno. rewrite load_videos_info_cases. now rewrite Hno.
  - intros e Hfile Hacc Hraise. rewrite load_videos_info_cases, Hraise.
    unfold accessible in Hacc.
    destruct (ledger w); [congruence|discriminate|reflexivity|reflexivity].
  - intros e He. unfold read_videos_info. run. now rewrite He.
Qed.

(** ** The progress callback *)

Lemma progress_hook_downloading (d : dict) (k : string) (ratio : float) (w : world) :
  hook_video_id d = Ok (VStr k) ->
  dict_lookup d "status" = Some (VStr "downloading") ->
  py_gt_zero (hook_total d) = Ok true ->
  py_truediv (hook_downloaded d) (hook_total d) = Ok ratio ->
  progress_hook d w
  = (Ok tt, set_download_progress
              (<[k := downloading_entry d (PrimFloat.mul ratio 100%float)]> (download_progress w)) w).
Proof.
  intros Hid Hstatus Hknown Hratio.
  unfold progress_hook, bind, lift, dict_item.
  rewrite Hid, Hstatus. cbn [is_str String.eqb]. rewrite Hknown, Hratio.
  reflexivity.
Qed.

Lemma progress_hook_unknown_total (d : dict) (w : world) :
  dict_lookup d "status" = Some (VStr "downloading") ->
  py_gt_zero (hook_total d) <> Ok true ->
  exec (progress_hook d) w = w.
Proof.
  intros Hstatus Hunknown.
  unfold exec, progress_hook, bind, lift, dict_item.
  destruct (hook_video_id d) as [v|e]; [|reflexivity].
  rewrite Hstatus. cbn [is_str String.eqb].
  destruct (py_gt_zero (hook_total d)) as [[|]|e]; [congruence|reflexivity|reflexivity].
Qed.

Lemma progress_hook_finished (d : dict) (k : string) (w : world) :
  hook_video_id d = Ok (VStr k) ->
  dict_lookup d "status" = Some (VStr "finished") ->
  progress_hook d w
  = (Ok tt, set_download_progress (<[k := finished_entry]> (download_progress w)) w).
Proof.
  intros Hid Hstatus.
  unfold progress_hook, bind, lift, dict_item.
  rewrite Hid, Hstatus. reflexivity.
Qed.

(** a downloading tick of a known total whose quotient raises: the
    callback raises and stores nothing *)
Lemma progress_hook_quotient_raises (d : dict) (v : value) (e : exn) (w : world) :
  hook_video_id d = Ok v ->
  dict_lookup d "status" = Some (VStr "downloading") ->
  py_gt_zero (hook_total d) = Ok true ->
  py_truediv (hook_downloaded d) (hook_total d) = Raise e ->
  progress_hook d w = (Raise e, w).
Proof.
  intros Hid Hstatus Hknown Hratio.
  unfold progress_hook, bind, lift, dict_item.
  rewrite Hid, Hstatus. cbn [is_str String.eqb]. rewrite Hknown, Hratio.
  reflexivity.
Qed.

(** a tick of the video ABC123: [downloaded] of [total] bytes *)
Lemma sample_tick_progress (downloaded total : Z) (ratio : float) (w : world) :
  0 < total ->
  py_truediv (VInt downloaded) (VInt total) = Ok ratio ->
  download_progress (exec (progress_hook (sample_tick downloaded total)) w) !! "ABC123"
  = Some [ ("progress", VFloat (round2 (PrimFloat.mul ratio 100%float)));
           ("speed", VFloat 2048%float); ("eta", VInt 3); ("status", VStr "downloading") ].
Proof.
  intros Htotal Hratio. unfold exec.
  assert (hook_total (sample_tick downloaded total) = VInt total) as Ht.
  { unfold hook_total, sample_tick, dict_get, dict_get_or, py_or. cbn [dict_lookup String.eqb Ascii.eqb Bool.eqb truthy].
    destruct total; [lia|reflexivity|lia]. }
  rewrite (progress_hook_downloading _ "ABC123" ratio); try reflexivity.
  - cbn [snd set_download_progress download_progress].
    now rewrite lookup_insert_eq.
  - rewrite Ht. cbn [py_gt_zero as_number]. f_equal. now apply Z.ltb_lt.
  - rewrite Ht. exact Hratio.
Qed.

(** the integer nearest to [a / b], the even one of two as near *)
Lemma div_half_even_nearest (a b : Z) :
  0 <= a -> 0 < b ->
  Z.abs (2 * a - 2 * div_half_even a b * b) <= b /\
  (Z.abs (2 * a - 2 * div_half_even a b * b) = b -> Z.even (div_half_even a b) = true).
Proof.
  intros Ha Hb. unfold div_half_even.
  pose proof (Z.div_mod a b ltac:(lia)) as Hdiv.
  pose proof (Z.mod_pos_bound a b Hb) as Hmod.
  set (q := a / b) in *. set (m := a mod b) in *.
  assert (2 * a - 2 * q * b = 2 * m) as Hq by lia.
  assert (2 * a - 2 * (q + 1) * b = 2 * m - 2 * b) as Hq1 by lia.
  destruct (Z.compare_spec (2 * m) b) as [Heq|Hlt|Hgt].
  - destruct (Z.even q) eqn:Heven.
    + rewrite Hq. split; [lia|trivial].
    + rewrite Hq1. split; [lia|]. intros _.
      rewrite Z.add_1_r, Z.even_succ, <- Z.negb_even. now rewrite Heven.
  - rewrite Hq. split; lia.
  - rewrite Hq1. split; lia.
Qed.

(** [round2] rounds to two decimals *)
Lemma round2_two_decimals (x : float) : two_decimals x (round2 x).
Proof.
  unfold two_decimals, round2.
  destruct (Prim2SF x) as [s|s| |s m e]; try reflexivity.
  cbv zeta. destruct e as [|k|k].
  - exists (100 * Z.pos m * 2 ^ 0). split; [reflexivity|].
    change (Z.max 0 0) with 0. change (Z.max 0 (- 0)) with 0.
    rewrite Z.pow_0_r. split; lia.
  - exists (100 * Z.pos m * 2 ^ Z.pos k). split; [reflexivity|].
    change (Z.max 0 (Z.pos k)) with (Z.pos k). change (Z.max 0 (- Z.pos k)) with 0.
    rewrite Z.pow_0_r. split; lia.
  - exists (div_half_even (100 * Z.pos m) (2 ^ Z.pos k)). split; [reflexivity|].
    change (Z.max 0 (Z.neg k)) with 0. change (Z.max 0 (- Z.neg k)) with (Z.pos k).
    rewrite Z.pow_0_r, Z.mul_1_r.
    apply div_half_even_nearest; [lia|].
    apply Z.pow_pos_nonneg; lia.
Qed.

(** the integer nearest to a ratio, the even one of two as near, is unique *)
Lemma nearest_even_unique (a d n n' : Z) :
  0 < d ->
  Z.abs (a - 2 * n * d) <= d -> (Z.abs (a - 2 * n * d) = d -> Z.even n = true) ->
  Z.abs (a - 2 * n' * d) <= d -> (Z.abs (a - 2 * n' * d) = d -> Z.even n' = true) ->
  n = n'.
Proof.
  intros Hd Hn En Hn' En'.
  assert (n' - n <= 1) as Hup by nia.
  assert (-1 <= n' - n) as Hlow by nia.
  assert (n' = n \/ n' = n + 1 \/ n = n' + 1) as [->|[->| ->]] by lia; [reflexivity| |].
  - assert (Z.abs (a - 2 * n * d) = d) as Hn1 by nia.
    assert (Z.abs (a - 2 * (n + 1) * d) = d) as Hn2 by nia.
    specialize (En Hn1). specialize (En' Hn2).
    rewrite Z.add_1_r, Z.even_succ, <- Z.negb_even, En in En'. discriminate En'.
  - assert (Z.abs (a - 2 * n' * d) = d) as Hn1 by nia.
    assert (Z.abs (a - 2 * (n' + 1) * d) = d) as Hn2 by nia.
    specialize (En' Hn1). specialize (En Hn2).
    rewrite Z.add_1_r, Z.even_succ, <- Z.negb_even, En' in En. discriminate En.
Qed.

(** ... so that [two_decimals] has one solution, the value of [round2] *)
Lemma two_decimals_round2 (x r : float) : two_decimals x r -> r = round2 x.
Proof.
  intros Hr. pose proof (round2_two_decimals x) as Hx.
  unfold two_decimals in Hr, Hx.
  destruct (Prim2SF x) as [s|s| |s m e]; try congruence.
  cbv zeta in Hr, Hx.
  destruct Hr as (n & -> & Hn & En). destruct Hx as (n' & -> & Hn' & En').
  f_equal. eapply nearest_even_unique; [|exact Hn|exact En|exact Hn'|exact En'].
  apply Z.pow_pos_nonneg; lia.
Qed.

(** C5, as the code has it: on a downloading tick whose total is known
    (greater than 0) and whose quotient downloaded / total computes, the
    callback stores, under the id of the tick, the progress
    round(downloaded / total * 100, 2), which is the one value of the
    product rounded to two decimals, with the speed, the eta and the status
    downloading; when the quotient raises, the callback raises; when the
    total is not known the table is left as it was; on a finished tick it
    stores progress 100 and the status finished.  The ticks 50 of 100 and
    100 of 100 give 50.0 and 100.0; the ticks 1 of 3, 2 of 3 and 1 of 32
    give 33.33, 66.67 and 3.12. *)
Theorem progress_hook_updates (d : dict) (k : string) (w : world) :
  hook_video_id d = Ok (VStr k) ->
  (forall ratio,
     dict_lookup d "status" = Some (VStr "downloading") ->
     py_gt_zero (hook_total d) = Ok true ->
     py_truediv (hook_downloaded d) (hook_total d) = Ok ratio ->
     progress_hook d w
     = (Ok tt, set_download_progress
                 (<[k := [ ("progress", VFloat (round2 (PrimFloat.mul ratio 100%float)));
                           ("speed", dict_get_or d "speed" (VInt 0));
                           ("eta", dict_get_or d "eta" (VInt 0));
                           ("status", VStr "downloading") ]]> (download_progress w)) w) /\
     two_decimals (PrimFloat.mul ratio 100%float) (round2 (PrimFloat.mul ratio 100%float)) /\
     (forall r, two_decimals (PrimFloat.mul ratio 100%float) r ->
                r = round2 (PrimFloat.mul ratio 100%float))) /\
  (forall e,
     dict_lookup d "status" = Some (VStr "downloading") ->
     py_gt_zero (hook_total d) = Ok true ->
     py_truediv (hook_downloaded d) (hook_total d) = Raise e ->
     progress_hook d w = (Raise e, w)) /\
  (dict_lookup d "status" = Some (VStr "downloading") ->
   py_gt_zero (hook_total d) <> Ok true ->
   exec (progress_hook d) w = w) /\
  (dict_lookup d "status" = Some (VStr "finished") ->
   progress_hook d w
   = (Ok tt, set_download_progress
               (<[k := [ ("progress", VInt 100); ("status", VStr "finished") ]]>
                  (download_progress w)) w)) /\
  (let w1 := exec (progress_hook (sample_tick 50 100)) w in
   let w2 := exec (progress_hook (sample_tick 100 100)) w1 in
   download_progress w1 !! "ABC123"
   = Some [ ("progress", VFloat 50%float); ("speed", VFloat 2048%float);
            ("eta", VInt 3); ("status", VStr "downloading") ] /\
   download_progress w2 !! "ABC123"
   = Some [ ("progress", VFloat 100%float); ("speed", VFloat 2048%float);
            ("eta", VInt 3); ("status", VStr "downloading") ]) /\
  (download_progress (exec (progress_hook (sample_tick 1 3)) w) !! "ABC123"
   = Some [ ("progress", VFloat 33.33%float); ("speed", VFloat 2048%float);
            ("eta", VInt 3); ("status", VStr "downloading") ] /\
   download_progress (exec (progress_hook (sample_tick 2 3)) w) !! "ABC123"
   = Some [ ("progress", VFloat 66.67%float); ("speed", VFloat 2048%float);
            ("eta", VInt 3); ("status", VStr "downloading") ] /\
   download_progress (exec (progress_hook (sample_tick 1 32)) w) !! "ABC123"
   = Some [ ("progress", VFloat 3.12%float); ("speed", VFloat 2048%float);
            ("eta", VInt 3); ("status", VStr "downloading") ]).
Proof.
  intros Hid. split; [|split; [|split; [|split; [|split]]]].
  - intros ratio Hstatus Hknown Hratio. split; [|split].
    + now apply progress_hook_downloading.
    + apply round2_two_decimals.
    + intros r. apply two_decimals_round2.
  - intros e Hstatus Hknown Hratio.
    now apply (progress_hook_quotient_raises d (VStr k)).
  - apply progress_hook_unknown_total.
  - intros Hstatus. now apply progress_hook_finished.
  - split.
    + now rewrite (sample_tick_progress 50 100 0.5%float).
    + now rewrite (sample_tick_progress 100 100 1%float).
  - split; [|split].
    + now rewrite (sample_tick_progress 1 3 0.33333333333333331%float).
    + now rewrite (sample_tick_progress 2 3 0.66666666666666663%float).
    + now rewrite (sample_tick_progress 1 32 0.03125%float).
Qed.

Lemma progress_hook_updates_witness :
  (hook_video_id (sample_tick 1 3) = Ok (VStr "ABC123") /\
   dict_lookup (sample_tick 1 3) "status" = Some (VStr "downloading") /\
   py_gt_zero (hook_total (sample_tick 1 3)) = Ok true /\
   py_truediv (hook_downloaded (sample_tick 1 3)) (hook_total (sample_tick 1 3))
   = Ok 0.33333333333333331%float) /\
  progress_hook (sample_tick 1 3) empty_world
  = (Ok tt, set_download_progress
              {[ "ABC123" := [ ("progress", VFloat 33.33%float); ("speed", VFloat 2048%float);
                               ("eta", VInt 3); ("status", VStr "downloading") ] ]}
              empty_world) /\
  two_decimals 33.333333333333329%float 33.33%float.
Proof.
  split; [repeat split; reflexivity|].
  destruct (progress_hook_updates (sample_tick 1 3) "ABC123" empty_world eq_refl)
    as (Hdown & _).
  destruct (Hdown 0.33333333333333331%float eq_refl eq_refl eq_refl) as (Hrun & Hround & _).
  split; [exact Hrun | exact Hround].
Defined.

(** C5, as claimed: a downloading tick of known total whose downloaded_bytes
    is None.  None / 100 raises TypeError; the callback raises it and the
    table gets no entry.  So does a tick whose int quotient is beyond the
    floats, with OverflowError. *)
Lemma known_total_tick_raises :
  dict_lookup stalled_tick "status" = Some (VStr "downloading") /\
  hook_video_id stalled_tick = Ok (VStr "ABC123") /\
  py_gt_zero (hook_total stalled_tick) = Ok true /\
  progress_hook stalled_tick empty_world = (Raise TypeError, empty_world) /\
  download_progress (exec (progress_hook stalled_tick) empty_world) !! "ABC123" = None /\
  py_gt_zero (hook_total (sample_tick (2 ^ 2000) 1)) = Ok true /\
  progress_hook (sample_tick (2 ^ 2000) 1) empty_world = (Raise OverflowError, empty_world).
Proof. repeat split; reflexivity. Qed.

(** ** DownloadWorker: the except branch *)

Lemma environ_proxy_run (w : world) : environ_proxy w = (Ok (worker_proxy w), w).
Proof. reflexivity. Qed.

(** an exception in the try is handled by the except branch, in the state
    the exception left *)
Lemma download_video_raise (py : runtime) (url : string) (format_id : option string)
    (e : exn) (w0 w : world) :
  download_video_try py url (download_opts format_id (worker_proxy w0))
    (with_skip_download (download_opts format_id (worker_proxy w0))) w0 = (Raise e, w) ->
  download_video py url format_id w0 = download_video_except py url e w.
Proof.
  intros Htry. unfold download_video, bind. rewrite environ_proxy_run.
  unfold try_except. now rewrite Htry.
Qed.

Lemma download_video_except_run (py : runtime) (url : string) (e : exn) (w : world) :
  download_video_except py url e w
  = (Ok None,
     set_stdout (stdout w ++ ["Error downloading video: " +:+ exn_str py e])
       (set_download_progress
          (<[failed_video_id url := error_entry (friendly_error py (exn_str py e)) (exn_str py e)]>
             (download_progress w)) w)).
Proof. reflexivity. Qed.

(** [friendly_error] is the first-match reading of the table *)
Lemma friendly_error_first_match (py : runtime) (text : string) :
  friendly_error py text = first_match (error_rules py) text.
Proof. reflexivity. Qed.

(** C3: the rules are tried in order and the first that matches decides: an
    error text that contains HTTP Error 429 gets the rate-limit message
    whatever else it contains (DNS, say), and the except branch stores the
    entry progress 0, status error, that message, and the raw text. *)
Theorem rate_limit_rule_first (py : runtime) (url : string) (e : exn) (w : world) :
  str_in "HTTP Error 429" (exn_str py e) = true ->
  friendly_error py (exn_str py e) = "YouTube 限制了请求速率，请稍后再试。" /\
  friendly_error py "HTTP Error 429 while resolving DNS" = "YouTube 限制了请求速率，请稍后再试。" /\
  download_video_except py url e w
  = (Ok None,
     set_stdout (stdout w ++ ["Error downloading video: " +:+ exn_str py e])
       (set_download_progress
          (<[failed_video_id url :=
               [ ("progress", VInt 0); ("status", VStr "error");
                 ("error", VStr "YouTube 限制了请求速率，请稍后再试。");
                 ("original_error", VStr (exn_str py e)) ]]>
             (download_progress w)) w)) /\
  (forall format_id w0,
     download_video_try py url (download_opts format_id (worker_proxy w0))
       (with_skip_download (download_opts format_id (worker_proxy w0))) w0 = (Raise e, w) ->
     download_video py url format_id w0 = download_video_except py url e w) /\
  (forall text, friendly_error py text = first_match (error_rules py) text).
Proof.
  intros H429.
  assert (Hmsg : friendly_error py (exn_str py e) = "YouTube 限制了请求速率，请稍后再试。").
  { unfold friendly_error. now rewrite H429. }
  split; [exact Hmsg|]. split; [reflexivity|]. split.
  - rewrite download_video_except_run, Hmsg. reflexivity.
  - split; [|apply friendly_error_first_match].
    intros format_id w0. apply download_video_raise.
Qed.

Lemma rate_limit_rule_first_witness :
  str_in "DNS" rate_limit_text = true /\
  download_progress
    (exec (download_video (failing_runtime rate_limit_text)
             "https://www.youtube.com/watch?v=ABC123&t=10" None) empty_world) !! "ABC123"
  = Some [ ("progress", VInt 0); ("status", VStr "error");
           ("error", VStr "YouTube 限制了请求速率，请稍后再试。");
           ("original_error", VStr rate_limit_text) ].
Proof.
  split; [reflexivity|].
  destruct (rate_limit_rule_first (failing_runtime rate_limit_text)
              "https://www.youtube.com/watch?v=ABC123&t=10" (EngineError rate_limit_text)
              (set_engine_calls [("https://www.youtube.com/watch?v=ABC123&t=10", false)] empty_world)
              eq_refl) as (_ & _ & Hexcept & Hworker & _).
  unfold exec. rewrite (Hworker None empty_world eq_refl), Hexcept.
  reflexivity.
Defined.

(** C6, at a youtu.be url: the except branch of [download_video] keys the
    error entry with unknown, the [download] handler gave the client the
    id ABC123; the entry the client polls is not touched.  For a
    youtube.com url with v= both take the same id. *)
Theorem youtu_be_error_key (py : runtime) (e : exn) (w : world) :
  failed_video_id "https://youtu.be/ABC123" = "unknown" /\
  request_video_id "https://youtu.be/ABC123" = "ABC123" /\
  download_progress (exec (download_video_except py "https://youtu.be/ABC123" e) w) !! "unknown"
  = Some (error_entry (friendly_error py (exn_str py e)) (exn_str py e)) /\
  download_progress (exec (download_video_except py "https://youtu.be/ABC123" e) w) !! "ABC123"
  = download_progress w !! "ABC123" /\
  (forall url, str_in "youtube.com" url = true -> str_in "v=" url = true ->
               failed_video_id url = request_video_id url).
Proof.
  split; [reflexivity|]. split; [reflexivity|].
  unfold exec. rewrite download_video_except_run. cbn [snd download_progress set_stdout set_download_progress].
  change (failed_video_id "https://youtu.be/ABC123") with "unknown".
  split; [apply lookup_insert_eq|].
  split; [now apply lookup_insert_ne|].
  intros url Hdomain Hv. unfold failed_video_id, request_video_id.
  now rewrite Hdomain, Hv.
Qed.

(** ** RequestHandlers *)

(** C7: for a url that contains neither youtube.com nor youtu.be both
    handlers answer with the validation error and leave the world as it is:
    no engine call, no background task, no change of the progress table. *)
Theorem invalid_url_rejected (py : runtime) (url : string) (format_id : option string) (w : world) :
  str_in "youtube.com" url = false ->
  str_in "youtu.be" url = false ->
  get_formats py url w = (Ok invalid_url_response, w) /\
  download url format_id w = (Ok invalid_url_response, w) /\
  dict_lookup invalid_url_response "status" = Some (VStr "error").
Proof.
  intros Hcom Hbe.
  assert (Hvalid : url_rejected url = true).
  { unfold url_rejected. cbn [existsb]. rewrite Hcom, Hbe. apply orb_true_r. }
  unfold get_formats, download. rewrite Hvalid. repeat split.
Qed.

Lemma invalid_url_rejected_witness :
  get_formats (sample_runtime (sample_info sample_formats)) "https://example.com/watch?v=ABC123"
    empty_world = (Ok invalid_url_response, empty_world) /\
  download "https://example.com/watch?v=ABC123" (Some "22") empty_world
  = (Ok invalid_url_response, empty_world).
Proof.
  destruct (invalid_url_rejected (sample_runtime (sample_info sample_formats))
              "https://example.com/watch?v=ABC123" (Some "22") empty_world eq_refl eq_refl)
    as (Hformats & Hdownload & _).
  split; [exact Hformats | exact Hdownload].
Defined.

(** C10: a url that passes the domain check but whose identifier comes out
    as unknown gets an error response from [download]; nothing is
    enqueued and the progress table is not written. *)
Theorem unknown_id_rejected (url : string) (format_id : option string) (w : world) :
  url_rejected url = false ->
  request_video_id url = "unknown" ->
  download url format_id w
  = (Ok [ ("status", VStr "error"); ("message", VStr "无法识别视频ID，请检查链接格式") ], w).
Proof.
  intros Hvalid Hid. unfold download. now rewrite Hvalid, Hid.
Qed.

Lemma unknown_id_rejected_witness :
  download "https://www.youtube.com/playlist?list=PL1" None empty_world
  = (Ok [ ("status", VStr "error"); ("message", VStr "无法识别视频ID，请检查链接格式") ],
     empty_world).
Proof.
  exact (unknown_id_rejected "https://www.youtube.com/playlist?list=PL1" None empty_world
           eq_refl eq_refl).
Defined.

(** ** FormatLister: the filter *)





(** the listing of [get_video_formats] when the engine answers with a
    dict: the candidates filtered, then ranked *)
Lemma get_video_formats_listing (py : runtime) (url : string) (w w1 : world)
    (info : dict) (items : list value) (listed ranked : list dict) :
  extract_info py formats_opts url false
    (set_engine_calls (engine_calls w ++ [(url, false)]) w) = (Ok (VDict info), w1) ->
  py_iter (dict_get_or info "formats" (VList [])) = Ok items ->
  collect_formats items = Ok listed ->
  sort_formats py listed = Ok ranked ->
  get_video_formats py url w
  = (Ok [ ("id", dict_get_or info "id" (VStr "unknown"));
          ("title", dict_get_or info "title" (VStr "Unknown"));
          ("formats", VList (map VDict ranked)) ], w1).
Proof.
  intros Hengine Hiter Hcollect Hsort.
  unfold get_video_formats, try_except, call_engine, bind, lift.
  rewrite Hengine. cbn [py_get]. now rewrite Hiter, Hcollect, Hsort.
Qed.



(** * Further properties of the code *)

(** ** VideoRecordStore: what a save keeps *)





Lemma filter_ids_NoDup (f : VideoInfo -> bool) (l : list VideoInfo) :
  List.NoDup (map id l) -> List.NoDup (map id (List.filter f l)).
Proof.
  induction l as [|v l IH]; [intros _; constructor|].
  cbn [map List.filter]. intros Hnd. inversion Hnd as [|? ? Hnotin Hl]; subst.
  destruct (f v); [|now apply IH].
  cbn [map]. constructor; [|now apply IH].
  intros Hin. apply Hnotin.
  apply in_map_iff in Hin as (v' & Hid & Hv'). apply filter_In in Hv' as [Hv' _].
  apply in_map_iff. now exists v'.
Qed.

Lemma other_id_not_in (r : VideoInfo) (l : list VideoInfo) :
  ~ In (id r) (map id (List.filter (other_id r) l)).
Proof.
  intros (v & Hid & Hv)%in_map_iff. apply filter_In in Hv as [_ Hother].
  unfold other_id in Hother. rewrite Hid, String.eqb_refl in Hother. discriminate.
Qed.

Lemma NoDup_snoc {A} (l : list A) (x : A) : List.NoDup l -> ~ In x l -> List.NoDup (l ++ [x]).
Proof.
  induction l as [|a l IH]; intros Hnd Hx; cbn [app].
  - constructor; [intros [] | constructor].
  - inversion Hnd as [|? ? Ha Hl]; subst. constructor.
    + intros [Hin | [<- | []]]%in_app_or; [now apply Ha | apply Hx; now left].
    + apply IH; [exact Hl | intros Hin; apply Hx; now right].
Qed.

(** X2: a ledger whose ids are pairwise distinct stays so under a
    [save_video_info] that returned. *)
Theorem save_keeps_ids_unique (py : runtime) (r : VideoInfo) (w : world) :
  fst (save_video_info py r w) = Ok tt ->
  List.NoDup (map id (records py w)) ->
  List.NoDup (map id (records py (exec (save_video_info py r) w))).
Proof.
  intros Hsave Hnd. rewrite (records_after_save py r w Hsave), map_app. cbn [map].
  apply NoDup_snoc; [now apply filter_ids_NoDup | apply other_id_not_in].
Qed.

Lemma stocked_ids_NoDup : List.NoDup (map id (records (sample_runtime VNone) stocked_world)).
Proof.
  change (List.NoDup ["ABC123"; "XYZ789"]).
  constructor; [intros [Heq | []]; discriminate Heq|].
  constructor; [intros []|constructor].
Qed.

(** On a ledger of two records, one of them of the video that is saved. *)
Lemma save_keeps_ids_unique_witness :
  fst (save_video_info (sample_runtime VNone) sample_record stocked_world) = Ok tt /\
  map id (records (sample_runtime VNone) stocked_world) = ["ABC123"; "XYZ789"] /\
  map id (records (sample_runtime VNone)
            (exec (save_video_info (sample_runtime VNone) sample_record) stocked_world))
  = ["XYZ789"; "ABC123"] /\
  List.NoDup (map id (records (sample_runtime VNone)
                   (exec (save_video_info (sample_runtime VNone) sample_record)
                      stocked_world))).
Proof.
  split; [reflexivity|].
  split; [reflexivity|].
  split; [reflexivity|].
  exact (save_keeps_ids_unique (sample_runtime VNone) sample_record stocked_world
           eq_refl stocked_ids_NoDup).
Defined.




(** ** VideoRecordStore: damaged and unreadable ledgers *)

Lemma rmap_list_raise {A B} (f : A -> result B) (l : list A) (a : A) (e : exn) :
  In a l -> f a = Raise e -> exists e', rmap_list f l = Raise e'.
Proof.
  induction l as [|b l IH]; [intros []|].
  intros [<- | Hin] Hfa; cbn [rmap_list].
  - rewrite Hfa. now exists e.
  - destruct (f b) as [b'|e0]; cbn [rbind]; [|now exists e0].
    destruct (IH Hin Hfa) as (e' & ->). now exists e'.
Qed.

Lemma load_videos_info_raise (py : runtime) (w : world) (e : exn) :
  ledger w <> NoFile -> accessible w = true -> fst (read_videos_info py w) = Raise e ->
  load_videos_info py w
  = (Ok [], set_stdout (stdout w ++ ["Error loading videos info: " +:+ exn_str py e]) w).
Proof.
  intros Hfile Hacc Hraise. rewrite load_videos_info_cases, Hraise.
  unfold accessible in Hacc.
  destruct (ledger w); [congruence | discriminate | reflexivity | reflexivity].
Qed.

(** X4: the ledger is read all or nothing: one item the [VideoInfo]
    constructor rejects makes [load_videos_info] print the error and
    return the empty list, whatever the other items are. *)
Theorem load_rejects_whole_file (py : runtime) (w : world) (items : list value)
    (item : value) (e : exn) :
  ledger w = Stored (VList items) ->
  In item items ->
  VideoInfo_new py item = Raise e ->
  exists e',
    load_videos_info py w
    = (Ok [], set_stdout (stdout w ++ ["Error loading videos info: " +:+ exn_str py e']) w).
Proof.
  intros Hledger Hin Hbad.
  destruct (rmap_list_raise (VideoInfo_new py) items item e Hin Hbad) as (e' & He').
  exists e'. apply load_videos_info_raise; [congruence|unfold accessible; now rewrite Hledger|].
  unfold read_videos_info. run. rewrite Hledger. cbn. now rewrite He'.
Qed.

Lemma load_rejects_whole_file_witness :
  exists e',
    load_videos_info (sample_runtime VNone) (set_ledger (Stored damaged_ledger) empty_world)
    = (Ok [], set_stdout
                (stdout (set_ledger (Stored damaged_ledger) empty_world)
                 ++ ["Error loading videos info: " +:+ exn_str (sample_runtime VNone) e'])
                (set_ledger (Stored damaged_ledger) empty_world)).
Proof.
  apply (load_rejects_whole_file (sample_runtime VNone)
           (set_ledger (Stored damaged_ledger) empty_world)
           [ VDict (model_dump sample_record); VDict [ ("id", VStr "XYZ789") ] ]
           (VDict [ ("id", VStr "XYZ789") ]) ValidationError).
  - reflexivity.
  - right. now left.
  - reflexivity.
Defined.

Lemma load_videos_info_state (py : runtime) (w : world) :
  exec (load_videos_info py) w = w \/
  exists line, exec (load_videos_info py) w = set_stdout (stdout w ++ [line]) w.
Proof.
  unfold exec. rewrite load_videos_info_cases.
  destruct (ledger w); [now left|now left| |];
    (destruct (fst (read_videos_info py w)); [now left | right; eexists; reflexivity]).
Qed.

(** X5: [load_videos_info] changes nothing but standard output, to which
    it adds at most one line. *)
Theorem load_changes_only_stdout (py : runtime) (w : world) :
  let w' := exec (load_videos_info py) w in
  ledger w' = ledger w /\
  download_progress w' = download_progress w /\
  environ w' = environ w /\
  background_tasks w' = background_tasks w /\
  engine_calls w' = engine_calls w /\
  (stdout w' = stdout w \/ exists line, stdout w' = stdout w ++ [line]).
Proof.
  intros w'. subst w'.
  destruct (load_videos_info_state py w) as [-> | (line & ->)].
  - repeat split. now left.
  - repeat split. right. now exists line.
Qed.



(** ** The progress callback: what it leaves alone *)

Lemma set_download_progress_same (w : world) :
  set_download_progress (download_progress w) w = w.
Proof. now destruct w. Qed.

Lemma progress_set_frame (v : value) (entry : dict) (w : world) :
  exists t,
    snd (progress_set v entry w) = set_download_progress t w /\
    forall k, v <> VStr k -> t !! k = download_progress w !! k.
Proof.
  destruct v as [| | | |s| |];
    try (exists (download_progress w); split;
         [cbn; now rewrite set_download_progress_same | reflexivity]).
  exists (<[s := entry]> (download_progress w)). split; [reflexivity|].
  intros k Hk. apply lookup_insert_ne. congruence.
Qed.

(** X7: whatever the tick, [progress_hook] changes at most the entry of
    the tick's own id: every other entry of the table, the ledger, standard
    output, the task list and the engine calls stay as they were. *)
Theorem progress_hook_frame (d : dict) (w : world) :
  exists t,
    exec (progress_hook d) w = set_download_progress t w /\
    forall k, hook_video_id d <> Ok (VStr k) -> t !! k = download_progress w !! k.
Proof.
  assert (Hsame : exists t, w = set_download_progress t w /\
            forall k, hook_video_id d <> Ok (VStr k) -> t !! k = download_progress w !! k).
  { exists (download_progress w). split; [now rewrite set_download_progress_same | reflexivity]. }
  unfold exec, progress_hook, bind, lift.
  destruct (hook_video_id d) as [v|e]; [|exact Hsame].
  assert (Hset : forall entry, exists t,
            snd (progress_set v entry w) = set_download_progress t w /\
            forall k, Ok v <> Ok (VStr k) -> t !! k = download_progress w !! k).
  { intros entry. destruct (progress_set_frame v entry w) as (t & Ht & Hother).
    exists t. split; [exact Ht|]. intros k Hk. apply Hother. congruence. }
  destruct (dict_item d "status") as [status|e]; [|exact Hsame].
  destruct (is_str status "downloading").
  - destruct (py_gt_zero (hook_total d)) as [[|]|e]; try exact Hsame.
    destruct (py_truediv (hook_downloaded d) (hook_total d)) as [ratio|e]; [|exact Hsame].
    apply Hset.
  - destruct (is_str status "finished"); [apply Hset | exact Hsame].
Qed.

(** X8: a tick whose status is neither downloading nor finished (error,
    say), or that has no status at all, leaves the world as it is. *)
Theorem progress_hook_ignores_status (d : dict) (w : world) :
  (forall s, dict_lookup d "status" = Some s ->
             is_str s "downloading" = false /\ is_str s "finished" = false) ->
  exec (progress_hook d) w = w.
Proof.
  intros Hstatus. unfold exec, progress_hook, bind, lift, dict_item.
  destruct (hook_video_id d) as [v|e]; [|reflexivity].
  destruct (dict_lookup d "status") as [s|]; [|reflexivity].
  destruct (Hstatus s eq_refl) as [-> ->]. reflexivity.
Qed.

Lemma progress_hook_ignores_status_witness :
  exec (progress_hook [ ("status", VStr "error"); ("info_dict", VDict [ ("id", VStr "ABC123") ]) ])
    empty_world = empty_world.
Proof.
  apply progress_hook_ignores_status.
  intros s [= <-]. split; reflexivity.
Defined.

(** X9: a finished tick that carries no info_dict, or an info_dict
    without an id, is recorded under the key unknown. *)
Theorem progress_hook_without_id (d : dict) (w : world) :
  (dict_lookup d "info_dict" = None \/
   exists info, dict_lookup d "info_dict" = Some (VDict info) /\ dict_lookup info "id" = None) ->
  dict_lookup d "status" = Some (VStr "finished") ->
  download_progress (exec (progress_hook d) w) !! "unknown"
  = Some [ ("progress", VInt 100); ("status", VStr "finished") ].
Proof.
  intros Hinfo Hstatus.
  assert (Hid : hook_video_id d = Ok (VStr "unknown")).
  { unfold hook_video_id, dict_get_or.
    destruct Hinfo as [-> | (info & -> & Hnone)]; [reflexivity|].
    cbn [py_get]. unfold dict_get_or. now rewrite Hnone. }
  unfold exec. rewrite (progress_hook_finished d "unknown" w Hid Hstatus).
  apply lookup_insert_eq.
Qed.

Lemma progress_hook_without_id_witness :
  download_progress (exec (progress_hook [ ("status", VStr "finished") ]) empty_world) !! "unknown"
  = Some [ ("progress", VInt 100); ("status", VStr "finished") ].
Proof.
  apply progress_hook_without_id; [now left | reflexivity].
Defined.

(** ** FormatLister: ranking twice, labels without a key, no exception *)

Lemma insert_desc_head {A} (k : Z) (x : A) (l : list (Z * A)) :
  Forall (desc (k, x)) l -> insert_desc k x l = (k, x) :: l.
Proof.
  destruct l as [|[k' y] l]; [reflexivity|].
  intros Hall. inversion Hall as [|? ? Hd _]; subst.
  unfold desc in Hd. cbn [fst] in Hd. cbn [insert_desc].
  destruct (Z.ltb_spec k k'); [lia | reflexivity].
Qed.

Lemma sort_desc_of_sorted {A} (l : list (Z * A)) :
  StronglySorted desc l -> sort_desc l = l.
Proof.
  induction 1 as [|[k x] l Hs IH Hall]; [reflexivity|].
  cbn [sort_desc fold_right fst snd]. fold (sort_desc l).
  rewrite IH. now apply insert_desc_head.
Qed.

Lemma rmap_list_keyed (py : runtime) (l : list (Z * dict)) :
  keyed py l -> rmap_list (sort_key py) (map snd l) = Ok (map fst l).
Proof.
  induction 1 as [|kx l Hk _ IH]; [reflexivity|].
  cbn [map rmap_list]. now rewrite Hk, IH.
Qed.

Lemma combine_fst_snd {A B} (l : list (A * B)) : combine (map fst l) (map snd l) = l.
Proof.
  induction l as [|[a b] l IH]; [reflexivity|]. cbn. now rewrite IH.
Qed.

(** X10: ranking is idempotent: what [sort_formats] returns is returned
    unchanged when it is ranked again. *)
Theorem sort_formats_idempotent (py : runtime) (formats ranked : list dict) :
  sort_formats py formats = Ok ranked ->
  sort_formats py ranked = Ok ranked.
Proof.
  unfold sort_formats at 1.
  destruct (rmap_list (sort_key py) formats) as [keys|e] eqn:Hkeys; [|discriminate].
  cbn [rbind]. intros [= <-].
  apply rmap_list_Forall2 in Hkeys.
  assert (Hout : keyed py (sort_desc (combine keys formats))).
  { eapply Permutation_Forall; [symmetry; apply sort_desc_perm|].
    now apply keyed_combine. }
  unfold sort_formats. rewrite (rmap_list_keyed py _ Hout). cbn [rbind].
  rewrite combine_fst_snd, sort_desc_of_sorted; [reflexivity | apply sort_desc_sorted].
Qed.

Lemma sort_formats_idempotent_witness :
  sort_formats (sample_runtime VNone) sample_ranked = Ok sample_ranked.
Proof.
  apply (sort_formats_idempotent (sample_runtime VNone) sample_listed sample_ranked).
  reflexivity.
Defined.

Lemma sort_formats_raise (py : runtime) (formats : list dict) (x : dict) (e : exn) :
  In x formats -> sort_key py x = Raise e ->
  exists e', sort_formats py formats = Raise e'.
Proof.
  intros Hin Hx. unfold sort_formats.
  destruct (rmap_list_raise (sort_key py) formats x e Hin Hx) as (e' & ->).
  now exists e'.
Qed.

(** X11: one listed format whose key cannot be computed (a label W x ?,
    a resolution that is None) makes the whole listing an error: when the
    engine answers with a dict, [get_video_formats] prints the error and
    returns a dict with the only key error. *)
Theorem unranked_format_fails_listing (py : runtime) (url : string) (w w1 : world)
    (info : dict) (items : list value) (listed : list dict) (x : dict) (e : exn) :
  extract_info py formats_opts url false
    (set_engine_calls (engine_calls w ++ [(url, false)]) w) = (Ok (VDict info), w1) ->
  py_iter (dict_get_or info "formats" (VList [])) = Ok items ->
  collect_formats items = Ok listed ->
  In x listed ->
  sort_key py x = Raise e ->
  exists e',
    get_video_formats py url w
    = (Ok [ ("error", VStr (exn_str py e')) ],
       set_stdout (stdout w1 ++ ["Error getting video formats: " +:+ exn_str py e']) w1).
Proof.
  intros Hengine Hiter Hcollect Hin Hx.
  destruct (sort_formats_raise py listed x e Hin Hx) as (e' & Hsort).
  exists e'.
  unfold get_video_formats, try_except, call_engine, bind, lift.
  rewrite Hengine. cbn [py_get]. now rewrite Hiter, Hcollect, Hsort.
Qed.

Lemma unranked_format_fails_listing_witness :
  exists e',
    get_video_formats (sample_runtime (sample_info spec_formats))
      "https://www.youtube.com/watch?v=ABC123" empty_world
    = (Ok [ ("error", VStr (exn_str (sample_runtime (sample_info spec_formats)) e')) ],
       set_stdout
         (stdout (set_engine_calls [("https://www.youtube.com/watch?v=ABC123", false)] empty_world)
          ++ ["Error getting video formats: "
              +:+ exn_str (sample_runtime (sample_info spec_formats)) e'])
         (set_engine_calls [("https://www.youtube.com/watch?v=ABC123", false)] empty_world)).
Proof.
  apply (unranked_format_fails_listing (sample_runtime (sample_info spec_formats))
           "https://www.youtube.com/watch?v=ABC123" empty_world
           (set_engine_calls [("https://www.youtube.com/watch?v=ABC123", false)] empty_world)
           [ ("id", VStr "ABC123"); ("title", VStr "Sample"); ("formats", VList spec_formats) ]
           spec_formats
           (map format_info
              [ [ ("format_id", VStr "137"); ("resolution", VStr "1080x?"); ("vcodec", VStr "avc1") ];
                [ ("format_id", VStr "22"); ("resolution", VStr "720p"); ("vcodec", VStr "avc1") ];
                [ ("format_id", VStr "sb0"); ("resolution", VStr "unknown"); ("vcodec", VStr "vp9") ];
                [ ("format_id", VStr "18"); ("resolution", VStr "480p"); ("vcodec", VStr "avc1") ] ])
           (format_info
              [ ("format_id", VStr "137"); ("resolution", VStr "1080x?"); ("vcodec", VStr "avc1") ])
           ValueError).
  - reflexivity.
  - reflexivity.
  - reflexivity.
  - now left.
  - apply (sort_key_width_only _ _ "1080"); reflexivity.
Defined.

Lemma get_video_formats_shape (py : runtime) (url : string) (w : world) :
  exists response w',
    get_video_formats py url w = (Ok response, w') /\
    ((exists text, response = [ ("error", VStr text) ]) \/
     (exists id_ title_ formats,
        response = [ ("id", id_); ("title", title_); ("formats", VList (map VDict formats)) ])).
Proof.
  unfold get_video_formats, try_except, call_engine, bind, lift, print, ret.
  destruct (extract_info py formats_opts url false _) as [[info|e] w1];
    [|do 2 eexists; split; [reflexivity | left; eexists; reflexivity]].
  destruct (py_get info "formats" (VList [])) as [raw|e];
    [|do 2 eexists; split; [reflexivity | left; eexists; reflexivity]].
  destruct (py_iter raw) as [items|e];
    [|do 2 eexists; split; [reflexivity | left; eexists; reflexivity]].
  destruct (collect_formats items) as [listed|e];
    [|do 2 eexists; split; [reflexivity | left; eexists; reflexivity]].
  destruct (sort_formats py listed) as [ranked|e];
    [|do 2 eexists; split; [reflexivity | left; eexists; reflexivity]].
  destruct (py_get info "id" (VStr "unknown")) as [id_|e];
    [|do 2 eexists; split; [reflexivity | left; eexists; reflexivity]].
  destruct (py_get info "title" (VStr "Unknown")) as [title_|e];
    [|do 2 eexists; split; [reflexivity | left; eexists; reflexivity]].
  do 2 eexists. split; [reflexivity|]. right. now exists id_, title_, ranked.
Qed.

(** X12: neither [get_video_formats] nor the handler [get_formats] ever
    raises, whatever the engine does: the first returns a dict that is
    either an error dict or the id, the title and the formats; the handler
    answers with status error or status success. *)
Theorem format_listing_never_raises (py : runtime) (url : string) (w : world) :
  (exists response w',
     get_video_formats py url w = (Ok response, w') /\
     ((exists text, response = [ ("error", VStr text) ]) \/
      (exists id_ title_ formats,
         response = [ ("id", id_); ("title", title_); ("formats", VList (map VDict formats)) ]))) /\
  (exists response w',
     get_formats py url w = (Ok response, w') /\
     (dict_lookup response "status" = Some (VStr "error") \/
      dict_lookup response "status" = Some (VStr "success"))).
Proof.
  split; [apply get_video_formats_shape|].
  unfold get_formats.
  destruct (url_rejected url); [do 2 eexists; split; [reflexivity | now left]|].
  destruct (get_video_formats_shape py url w)
    as (response & w' & Hrun & [(text & ->) | (id_ & title_ & formats & ->)]);
    unfold bind; rewrite Hrun; cbn; do 2 eexists; (split; [reflexivity|]);
    [now left | now right].
Qed.

(** ** Identifiers taken from a url *)

Lemma split_from_not_nil (sep : string) (skip : nat) (cur s : string) :
  split_from sep skip cur s <> [].
Proof.
  revert skip cur. induction s as [|c s IH]; intros skip cur; [discriminate|].
  cbn [split_from]. destruct skip; [|apply IH].
  destruct (String.prefix sep (String c s)); [discriminate | apply IH].
Qed.

Lemma last_cons {A} (x d : A) (l : list A) :
  l <> [] -> List.last (x :: l) d = List.last l d.
Proof. destruct l; [congruence | reflexivity]. Qed.

(** a text in which the separator does not occur is one piece *)
Lemma split_from_no_occurrence (sep cur s : string) :
  str_in sep s = false -> split_from sep O cur s = [cur +:+ s].
Proof.
  revert cur. induction s as [|c s IH]; intros cur.
  - intros _. cbn [split_from]. now rewrite append_empty_r.
  - cbn [str_in]. intros [Hprefix Hrest]%orb_false_iff.
    cbn [split_from]. rewrite Hprefix, IH by exact Hrest.
    now rewrite append_snoc.
Qed.

Lemma prefix_two (c1 c2 c d : ascii) (s : string) :
  String.prefix (String c1 (String c2 EmptyString)) (String c (String d s))
  = Ascii.eqb c c1 && Ascii.eqb d c2.
Proof.
  cbn [String.prefix].
  destruct (ascii_dec c1 c) as [->|Hc].
  - rewrite Ascii.eqb_refl. destruct (ascii_dec c2 d) as [->|Hd].
    + rewrite Ascii.eqb_refl. now destruct s.
    + symmetry. apply Ascii.eqb_neq. congruence.
  - symmetry. apply andb_false_iff. left. apply Ascii.eqb_neq. congruence.
Qed.

Lemma prefix_append (sep b : string) : String.prefix sep (sep +:+ b) = true.
Proof.
  induction sep as [|c sep IH]; [now destruct b|].
  rewrite append_cons. cbn [String.prefix].
  destruct (ascii_dec c c); [exact IH | congruence].
Qed.

Lemma str_in_middle (sep a b : string) : str_in sep (a +:+ sep +:+ b) = true.
Proof.
  induction a as [|c a IH].
  - rewrite append_nil. destruct (sep +:+ b) eqn:Hs; cbn [str_in];
      rewrite <- Hs, prefix_append; reflexivity.
  - rewrite append_cons. cbn [str_in]. rewrite IH. apply orb_true_r.
Qed.

Lemma split_from_step (sep cur : string) (c : ascii) (s : string) :
  split_from sep O cur (String c s)
  = if String.prefix sep (String c s)
    then cur :: split_from sep (String.length sep - 1)%nat EmptyString s
    else split_from sep O (cur +:+ String c EmptyString) s.
Proof. reflexivity. Qed.

Lemma split_from_skip (sep cur : string) (k : nat) (c : ascii) (s : string) :
  split_from sep (S k) cur (String c s) = split_from sep k cur s.
Proof. reflexivity. Qed.

(** the piece after the last v= *)
Lemma last_split_v (b : string) :
  str_in "v=" b = false ->
  forall n a cur, (String.length a <= n)%nat ->
    List.last (split_from "v=" O cur (a +:+ "v=" +:+ b)) EmptyString = b.
Proof.
  intros Hb.
  assert (Hbase : forall cur,
            List.last (split_from "v=" O cur ("v=" +:+ b)) EmptyString = b).
  { intros cur. change ("v=" +:+ b) with (String "v" (String "=" b)).
    rewrite split_from_step, prefix_two, !Ascii.eqb_refl. cbn [andb].
    change (String.length "v=" - 1)%nat with 1%nat.
    rewrite split_from_skip, split_from_no_occurrence by exact Hb. reflexivity. }
  induction n as [|n IH]; intros a cur Hlen.
  - destruct a; [apply Hbase | cbn in Hlen; lia].
  - destruct a as [|c [|d a]].
    + apply Hbase.
    + change (String c "" +:+ "v=" +:+ b) with (String c (String "v" (String "=" b))).
      rewrite split_from_step, prefix_two.
      replace (Ascii.eqb c "v" && Ascii.eqb "v" "=") with false
        by (now rewrite andb_false_r).
      apply Hbase.
    + change (String c (String d a) +:+ "v=" +:+ b)
        with (String c (String d (a +:+ "v=" +:+ b))).
      rewrite split_from_step, prefix_two.
      cbn [String.length] in Hlen.
      destruct (Ascii.eqb c "v" && Ascii.eqb d "=").
      * change (String.length "v=" - 1)%nat with 1%nat.
        rewrite split_from_skip, last_cons by apply split_from_not_nil.
        apply IH. lia.
      * change (String d (a +:+ "v=" +:+ b)) with (String d a +:+ "v=" +:+ b).
        apply IH. cbn [String.length]. lia.
Qed.

(** the piece after the last occurrence of a one-character separator *)
Lemma last_split_char (x : ascii) (b : string) :
  no_char x b = true ->
  forall a cur,
    List.last (split_from (String x EmptyString) O cur (a +:+ String x b)) EmptyString = b.
Proof.
  intros Hb. induction a as [|c a IH]; intros cur.
  - rewrite append_nil, split_from_step, prefix_char, Ascii.eqb_refl.
    change (String.length (String x "") - 1)%nat with O.
    now rewrite split_from_clean by exact Hb.
  - rewrite append_cons, split_from_step, prefix_char.
    destruct (Ascii.eqb c x); [|apply IH].
    change (String.length (String x "") - 1)%nat with O.
    rewrite last_cons by apply split_from_not_nil.
    apply IH.
Qed.

(** the piece before the first occurrence of a one-character separator *)
Lemma hd_split_char (x : ascii) (vid rest : string) :
  no_char x vid = true ->
  rest = EmptyString \/ (exists r, rest = String x r) ->
  List.hd EmptyString (str_split (vid +:+ rest) (String x EmptyString)) = vid.
Proof.
  intros Hvid [-> | (r & ->)]; unfold str_split.
  - rewrite append_empty_r, split_from_clean by exact Hvid. reflexivity.
  - rewrite split_from_at by exact Hvid. reflexivity.
Qed.

(** line 278 and line 213: the text after the last v=, up to the first
    ampersand *)
Lemma video_id_after_v (a vid rest : string) :
  str_in "v=" (vid +:+ rest) = false ->
  no_char "&" vid = true ->
  rest = EmptyString \/ (exists r, rest = String "&" r) ->
  List.hd EmptyString
    (str_split (List.last (str_split (a +:+ "v=" +:+ vid +:+ rest) "v=") EmptyString) "&")
  = vid.
Proof.
  intros Hclean Hvid Hrest. unfold str_split at 2.
  rewrite (last_split_v (vid +:+ rest) Hclean (String.length a) a EmptyString) by lia.
  now apply hd_split_char.
Qed.

(** X13: for a url that contains youtube.com and reads: anything, then
    v=, then an identifier without ampersand, then nothing or an ampersand
    and more, with no further v= after that one, both the [download]
    handler and the except branch of [download_video] take exactly that
    identifier. *)
Theorem watch_url_id (a vid rest : string) :
  str_in "youtube.com" (a +:+ "v=" +:+ vid +:+ rest) = true ->
  str_in "v=" (vid +:+ rest) = false ->
  no_char "&" vid = true ->
  rest = EmptyString \/ (exists r, rest = String "&" r) ->
  request_video_id (a +:+ "v=" +:+ vid +:+ rest) = vid /\
  failed_video_id (a +:+ "v=" +:+ vid +:+ rest) = vid.
Proof.
  intros Hdomain Hclean Hvid Hrest.
  assert (Hv : str_in "v=" (a +:+ "v=" +:+ vid +:+ rest) = true) by apply str_in_middle.
  unfold request_video_id, failed_video_id. rewrite Hdomain, Hv. cbn [andb].
  now rewrite video_id_after_v.
Qed.

Lemma watch_url_id_witness :
  request_video_id "https://www.youtube.com/watch?v=ABC123&t=10" = "ABC123" /\
  failed_video_id "https://www.youtube.com/watch?v=ABC123&t=10" = "ABC123".
Proof.
  apply (watch_url_id "https://www.youtube.com/watch?" "ABC123" "&t=10");
    try reflexivity.
  right. now exists "t=10".
Defined.

(** X14: for a url that contains youtu.be (and is not a youtube.com url
    with v=) and reads: anything, then a slash, then an identifier without
    slash or question mark, then nothing or a question mark and a query
    without slash, the [download] handler takes exactly that identifier. *)
Theorem short_url_id (a vid rest : string) :
  str_in "youtu.be" (a +:+ "/" +:+ vid +:+ rest) = true ->
  str_in "youtube.com" (a +:+ "/" +:+ vid +:+ rest)
  && str_in "v=" (a +:+ "/" +:+ vid +:+ rest) = false ->
  no_char "/" (vid +:+ rest) = true ->
  no_char "?" vid = true ->
  rest = EmptyString \/ (exists r, rest = String "?" r) ->
  request_video_id (a +:+ "/" +:+ vid +:+ rest) = vid.
Proof.
  intros Hdomain Hnot Hclean Hvid Hrest.
  unfold request_video_id. rewrite Hnot, Hdomain.
  unfold str_split at 2. change ("/" +:+ vid +:+ rest) with (String "/" (vid +:+ rest)).
  rewrite (last_split_char "/" (vid +:+ rest) Hclean).
  now apply hd_split_char.
Qed.

Lemma short_url_id_witness :
  request_video_id "https://youtu.be/ABC123?t=10" = "ABC123".
Proof.
  apply (short_url_id "https://youtu.be" "ABC123" "?t=10"); try reflexivity.
  right. now exists "t=10".
Defined.

(** ** RequestHandlers: what is accepted and what polling sees *)

Lemma url_rejected_spec (url : string) :
  url_rejected url = negb (str_in "youtube.com" url || str_in "youtu.be" url).
Proof.
  unfold url_rejected. cbn [existsb truthy]. rewrite orb_false_r. now destruct url.
Qed.

(** X15: the handlers accept a url exactly when it contains youtube.com
    or youtu.be; the test for an empty url adds nothing, and the domain may
    stand anywhere in the text. *)
Theorem url_accepted_iff (url : string) :
  url_rejected url = negb (str_in "youtube.com" url || str_in "youtu.be" url) /\
  (forall a b, url_rejected (a +:+ "youtube.com" +:+ b) = false) /\
  (forall a b, url_rejected (a +:+ "youtu.be" +:+ b) = false).
Proof.
  split; [apply url_rejected_spec|]. split; intros a b; rewrite url_rejected_spec.
  - now rewrite str_in_middle.
  - rewrite (str_in_middle "youtu.be"). now rewrite orb_true_r.
Qed.

(** X16: an accepted request (a valid url whose identifier is not
    unknown) answers success with the identifier, leaves under that
    identifier the entry progress 0, status queued, whatever was there
    before, adds one task with the url and the format, and touches no other
    entry, nor the ledger. *)
Theorem download_accepts (url : string) (format_id : option string) (w : world) :
  url_rejected url = false ->
  request_video_id url <> "unknown" ->
  let w' := exec (download url format_id) w in
  fst (download url format_id w)
  = Ok [ ("status", VStr "success"); ("message", VStr "Download started");
         ("video_id", VStr (request_video_id url)) ] /\
  get_progress (request_video_id url) w'
  = (Ok [ ("progress", VInt 0); ("status", VStr "queued") ], w') /\
  background_tasks w' = background_tasks w ++ [(url, format_id)] /\
  (forall k, k <> request_video_id url ->
             download_progress w' !! k = download_progress w !! k) /\
  ledger w' = ledger w /\ stdout w' = stdout w /\ engine_calls w' = engine_calls w.
Proof.
  intros Hvalid Hid w'. subst w'. unfold exec, download. rewrite Hvalid.
  destruct (String.eqb_spec (request_video_id url) "unknown") as [|_]; [congruence|].
  cbn. repeat split.
  - unfold get_progress. cbn. now rewrite lookup_insert_eq.
  - intros k Hk. now apply lookup_insert_ne.
Qed.

Lemma download_accepts_witness :
  get_progress "ABC123"
    (exec (download "https://youtu.be/ABC123?t=10" (Some "22")) empty_world)
  = (Ok [ ("progress", VInt 0); ("status", VStr "queued") ],
     exec (download "https://youtu.be/ABC123?t=10" (Some "22")) empty_world).
Proof.
  destruct (download_accepts "https://youtu.be/ABC123?t=10" (Some "22") empty_world)
    as (_ & Hpoll & _); [reflexivity | discriminate | exact Hpoll].
Defined.

(** ** DownloadWorker: outcomes *)

(** X17: for a url that contains youtube.com and v=, a failure of the
    worker is what the client then polls: after [download_video] has caught
    the exception [e], [get_progress] on the identifier the [download]
    handler gave out returns the error entry of [e]. *)
Theorem worker_error_is_polled (py : runtime) (url : string) (format_id : option string)
    (e : exn) (w0 w : world) :
  str_in "youtube.com" url = true ->
  str_in "v=" url = true ->
  download_video_try py url (download_opts format_id (worker_proxy w0))
    (with_skip_download (download_opts format_id (worker_proxy w0))) w0 = (Raise e, w) ->
  fst (get_progress (request_video_id url) (exec (download_video py url format_id) w0))
  = Ok [ ("progress", VInt 0); ("status", VStr "error");
         ("error", VStr (friendly_error py (exn_str py e)));
         ("original_error", VStr (exn_str py e)) ].
Proof.
  intros Hdomain Hv Htry.
  assert (Hid : request_video_id url = failed_video_id url).
  { unfold request_video_id, failed_video_id. now rewrite Hdomain, Hv. }
  unfold exec. rewrite (download_video_raise py url format_id e w0 w Htry).
  rewrite download_video_except_run, Hid. unfold get_progress. cbn.
  now rewrite lookup_insert_eq.
Qed.

Lemma worker_error_is_polled_witness :
  fst (get_progress "ABC123"
         (exec (download_video (failing_runtime "Video unavailable")
                  "https://www.youtube.com/watch?v=ABC123" None) empty_world))
  = Ok [ ("progress", VInt 0); ("status", VStr "error");
         ("error", VStr "视频不可用，可能已被上传者删除或设为私有。");
         ("original_error", VStr "Video unavailable") ].
Proof.
  exact (worker_error_is_polled (failing_runtime "Video unavailable")
           "https://www.youtube.com/watch?v=ABC123" None (EngineError "Video unavailable")
           empty_world
           (set_engine_calls [("https://www.youtube.com/watch?v=ABC123", false)] empty_world)
           eq_refl eq_refl eq_refl).
Defined.



(** ** Further edges *)

(** X19: a url that contains youtube.com and ends with v= is accepted
    with the empty identifier: the handler answers success with video_id
    the empty string and queues the entry under the empty key. *)
Theorem empty_identifier_accepted (a : string) (format_id : option string) (w : world) :
  str_in "youtube.com" (a +:+ "v=") = true ->
  request_video_id (a +:+ "v=") = EmptyString /\
  download (a +:+ "v=") format_id w
  = (Ok [ ("status", VStr "success"); ("message", VStr "Download started");
          ("video_id", VStr EmptyString) ],
     set_background_tasks (background_tasks w ++ [(a +:+ "v=", format_id)])
       (set_download_progress
          (<[EmptyString := [ ("progress", VInt 0); ("status", VStr "queued") ]]>
             (download_progress w)) w)).
Proof.
  intros Hdomain.
  assert (Hid : request_video_id (a +:+ "v=") = EmptyString).
  { pose proof (video_id_after_v a EmptyString EmptyString eq_refl eq_refl (or_introl eq_refl))
      as Hid.
    pose proof (str_in_middle "v=" a EmptyString) as Hv.
    change (a +:+ "v=" +:+ EmptyString +:+ EmptyString) with (a +:+ "v=") in Hid.
    change (a +:+ "v=" +:+ EmptyString) with (a +:+ "v=") in Hv.
    unfold request_video_id. now rewrite Hdomain, Hv. }
  split; [exact Hid|].
  unfold download. rewrite url_rejected_spec, Hdomain, Hid. reflexivity.
Qed.

Lemma empty_identifier_accepted_witness :
  request_video_id "https://www.youtube.com/watch?v=" = EmptyString.
Proof.
  apply (empty_identifier_accepted "https://www.youtube.com/watch?" None empty_world).
  reflexivity.
Defined.

Lemma filter_all {A} (f : A -> bool) (l : list A) :
  Forall (fun x => f x = true) l -> List.filter f l = l.
Proof.
  induction 1 as [|x l Hx _ IH]; [reflexivity|].
  cbn [List.filter]. now rewrite Hx, IH.
Qed.

(** X20: formats whose keys are all the same (all 720p, all without a
    resolution) come out of the ranking in the order the engine gave. *)
Theorem equal_keys_keep_order (py : runtime) (j : Z) (formats ranked : list dict) :
  sort_formats py formats = Ok ranked ->
  Forall (fun x => key_of py x = j) formats ->
  ranked = formats.
Proof.
  intros Hsort Hkeys.
  destruct (sort_formats_ranked py formats ranked Hsort) as (Hperm & _ & _ & Hstable).
  assert (Hall : forall l, Forall (fun x => key_of py x = j) l ->
                           Forall (fun x => has_key py j x = true) l).
  { intros l Hl. eapply List.Forall_impl; [|exact Hl].
    intros x Hx. unfold has_key. now apply Z.eqb_eq. }
  rewrite <- (filter_all (has_key py j) ranked), <- (filter_all (has_key py j) formats);
    [apply Hstable | now apply Hall |].
  apply Hall. eapply Permutation_Forall; [exact Hperm | exact Hkeys].
Qed.

Lemma equal_keys_keep_order_witness :
  sort_formats (sample_runtime VNone)
    [ [ ("format_id", VStr "22"); ("resolution", VStr "720p") ];
      [ ("format_id", VStr "136"); ("resolution", VStr "1280x720") ];
      [ ("format_id", VStr "247"); ("resolution", VStr "720p") ] ]
  = Ok [ [ ("format_id", VStr "22"); ("resolution", VStr "720p") ];
         [ ("format_id", VStr "136"); ("resolution", VStr "1280x720") ];
         [ ("format_id", VStr "247"); ("resolution", VStr "720p") ] ].
Proof.
  destruct (sort_formats (sample_runtime VNone)
              [ [ ("format_id", VStr "22"); ("resolution", VStr "720p") ];
                [ ("format_id", VStr "136"); ("resolution", VStr "1280x720") ];
                [ ("format_id", VStr "247"); ("resolution", VStr "720p") ] ])
    as [ranked|e] eqn:Hsort; [|discriminate Hsort].
  f_equal.
  apply (equal_keys_keep_order (sample_runtime VNone) 720 _ ranked Hsort).
  repeat constructor.
Defined.

Lemma div_core_self (p : positive) :
  SpecFloat.SFdiv_core_binary prec emax (Zpos p) 0 (Zpos p) 0
  = (2 ^ 53, -53, SpecFloat.loc_Exact).
Proof.
  unfold SpecFloat.SFdiv_core_binary.
  replace (SpecFloat.Zdigits2 (Z.pos p) + 0 - (SpecFloat.Zdigits2 (Z.pos p) + 0)) with 0 by lia.
  change (Z.min (SpecFloat.fexp prec emax 0) (0 - 0)) with (-53).
  change (0 - 0 - -53) with 53.
  cbv beta iota zeta.
  assert (Hdiv : Z.div_eucl (Z.shiftl (Z.pos p) 53) (Z.pos p) = (2 ^ 53, 0)).
  { rewrite Z.shiftl_mul_pow2 by lia. rewrite (Z.mul_comm (Z.pos p)).
    pose proof (Z.div_mul (2 ^ 53) (Z.pos p) ltac:(lia)) as Hq.
    pose proof (Z.mod_mul (2 ^ 53) (Z.pos p) ltac:(lia)) as Hr.
    unfold Z.div, Z.modulo in Hq, Hr.
    destruct (Z.div_eucl (2 ^ 53 * Z.pos p) (Z.pos p)) as [q r].
    now subst. }
  change (IntDef.Z.div_eucl) with Z.div_eucl.
  change (IntDef.Z.shiftl) with Z.shiftl.
  rewrite Hdiv.
  unfold SpecFloat.new_location, SpecFloat.new_location_even, SpecFloat.new_location_odd.
  now destruct (Z.even (Z.pos p)).
Qed.

(** an int divided by itself is exactly 1.0, however large *)
Lemma int_truediv_self (t : Z) : 0 < t -> int_truediv t t = Ok 1%float.
Proof.
  destruct t as [|p|p]; try lia. intros _.
  unfold int_truediv, nearest_float. rewrite div_core_self. reflexivity.
Qed.

Lemma int_truediv_zero (t : Z) : 0 < t -> int_truediv 0 t = Ok 0%float.
Proof. destruct t; try lia. reflexivity. Qed.

(** X21: the two ends of a download, for every positive int total: a
    downloading tick with no downloaded_bytes, or with 0, stores progress
    0.0, and a tick whose downloaded_bytes equals the total stores 100.0,
    exactly. *)
Theorem progress_hook_ends (d : dict) (k : string) (t : Z) (w : world) :
  hook_video_id d = Ok (VStr k) ->
  dict_lookup d "status" = Some (VStr "downloading") ->
  hook_total d = VInt t ->
  0 < t ->
  ((dict_lookup d "downloaded_bytes" = None \/
    dict_lookup d "downloaded_bytes" = Some (VInt 0)) ->
   download_progress (exec (progress_hook d) w) !! k
   = Some [ ("progress", VFloat 0%float);
            ("speed", dict_get_or d "speed" (VInt 0));
            ("eta", dict_get_or d "eta" (VInt 0));
            ("status", VStr "downloading") ]) /\
  (dict_lookup d "downloaded_bytes" = Some (VInt t) ->
   download_progress (exec (progress_hook d) w) !! k
   = Some [ ("progress", VFloat 100%float);
            ("speed", dict_get_or d "speed" (VInt 0));
            ("eta", dict_get_or d "eta" (VInt 0));
            ("status", VStr "downloading") ]).
Proof.
  intros Hid Hstatus Htotal Hpos.
  assert (Hknown : py_gt_zero (hook_total d) = Ok true).
  { rewrite Htotal. cbn. f_equal. now apply Z.ltb_lt. }
  split.
  - intros Hnone.
    assert (Hdown : hook_downloaded d = VInt 0).
    { unfold hook_downloaded, dict_get_or. now destruct Hnone as [-> | ->]. }
    unfold exec.
    rewrite (progress_hook_downloading d k 0%float w Hid Hstatus Hknown).
    + cbn [snd set_download_progress download_progress]. now rewrite lookup_insert_eq.
    + rewrite Hdown, Htotal. cbn [py_truediv as_number]. now apply int_truediv_zero.
  - intros Hfull.
    assert (Hdown : hook_downloaded d = VInt t).
    { unfold hook_downloaded, dict_get_or. now rewrite Hfull. }
    unfold exec.
    rewrite (progress_hook_downloading d k 1%float w Hid Hstatus Hknown).
    + cbn [snd set_download_progress download_progress]. now rewrite lookup_insert_eq.
    + rewrite Hdown, Htotal. cbn [py_truediv as_number]. now apply int_truediv_self.
Qed.

Lemma progress_hook_ends_witness :
  download_progress (exec (progress_hook (sample_tick 7340032 7340032)) empty_world) !! "ABC123"
  = Some [ ("progress", VFloat 100%float); ("speed", VFloat 2048%float);
           ("eta", VInt 3); ("status", VStr "downloading") ].
Proof.
  exact (proj2 (progress_hook_ends (sample_tick 7340032 7340032) "ABC123" 7340032 empty_world
                  eq_refl eq_refl eq_refl eq_refl) eq_refl).
Defined.
